(** * Remote file I/O protocol client of the remoteclient plugin

    A shallow embedding of
    [spyder/plugins/remoteclient/api/rest/plugin.py]:
    the error classes, the payload codec of [SpyderRemoteFileIOAPI]
    ([_encode_data] / [_decode_data]), the session handshake
    ([connect] / [_check_connection]), the response decoder
    ([_get_response]), the file operations built on it and the metadata
    operations of [SpyderRemoteFileServicesAPI].

    Python objects are values of [pyval]; a method of a class is a
    function from the object ([self]) to a result and the updated object;
    a raised exception is the [Raise] case of [Result]. *)

From Stdlib Require Import ZArith List Lia Bool String Ascii.
From Stdlib.Strings Require Import Byte.
Import ListNotations.
Open Scope Z_scope.

Ltac Zify.zify_post_hook ::= Z.to_euclidean_division_equations.
#[local] Set Warnings "-register-all".

(* ================================================================== *)
(** * Part I: the program *)
(* ================================================================== *)

(** ** Python values *)

(** A [str] is a sequence of Unicode code points, a [bytes] object a
    sequence of octets. *)
Definition pystr := list Z.
Definition pybytes := list byte.

Definition Zb (b : byte) : Z := Z.of_N (Byte.to_N b).

Definition byte_of_Z (z : Z) : byte :=
  match Byte.of_N (Z.to_N z) with
  | Some b => b
  | None => x00
  end.

(** A string literal of the source, as a [str]. *)
Definition str (s : string) : pystr :=
  map (fun a => Z.of_N (N_of_ascii a)) (list_ascii_of_string s).
Arguments str s%_string.

Fixpoint str_eqb (s t : pystr) : bool :=
  match s, t with
  | [], [] => true
  | c :: s', d :: t' => (c =? d) && str_eqb s' t'
  | _, _ => false
  end.

(** The values that [json.loads] produces, and the [bytes] that the file
    operations carry.  JSON numbers are modelled for integers only. *)
Inductive pyval : Type :=
| PyNone
| PyBool (b : bool)
| PyInt (n : Z)
| PyStr (s : pystr)
| PyBytes (b : pybytes)
| PyList (l : list pyval)
| PyDict (d : list (pystr * pyval)).

(** Truth value of an object, as tested by [while x := ...] and [not x]. *)
Definition truthy (v : pyval) : bool :=
  match v with
  | PyNone => false
  | PyBool b => b
  | PyInt n => negb (n =? 0)
  | PyStr s => match s with [] => false | _ => true end
  | PyBytes b => match b with [] => false | _ => true end
  | PyList l => match l with [] => false | _ => true end
  | PyDict d => match d with [] => false | _ => true end
  end.

(** [bool] is a subclass of [int]: the integer an object compares as. *)
Definition as_int (v : pyval) : option Z :=
  match v with
  | PyInt n => Some n
  | PyBool b => Some (if b then 1 else 0)
  | _ => None
  end.

(** [v == n] for an integer constant [n] (an [HTTPStatus] member or a
    close code): never raises, false for any other type. *)
Definition eq_int (v : pyval) (n : Z) : bool :=
  match as_int v with
  | Some m => m =? n
  | None => false
  end.

Fixpoint dict_lookup (k : pystr) (d : list (pystr * pyval)) : option pyval :=
  match d with
  | [] => None
  | (k', v) :: d' => if str_eqb k k' then Some v else dict_lookup k d'
  end.

(** ** Exceptions *)

(** What the error objects store in their [type] and [message] fields:
    a value taken from a payload, the class object [OSError], or the
    text that [OSError.__str__] renders for its three arguments. *)
Inductive pyobj : Type :=
| Val (v : pyval)
| OSError_class
| OSError_str (errno strerror filename : pyval).

Record RemoteFileServicesError : Type := RemoteFileServicesError_init {
  type : pyobj;
  message : pyobj;
  url : pystr;
  tracebacks : pyval
}.

(** [RemoteOSError(OSError, RemoteFileServicesError)]: the [OSError] part
    and the [RemoteFileServicesError] part of the object. *)
Record RemoteOSError : Type := mkRemoteOSError {
  errno : pyval;
  strerror : pyval;
  filename : pyval;
  service_part : RemoteFileServicesError
}.

(** Failures of the transport itself: a wait that times out, a write on
    a closed connection, a connection that cannot be made, and the error
    that [raise_for_status] of the transport library raises. *)
Inductive transport_error : Type :=
| TimeoutError
| ConnectionResetError
| ClientConnectionError
| ClientResponseError (status : Z).

Inductive exn : Type :=
| KeyError (key : pystr)
| TypeError
| AttributeError
| ValueError
| LookupError
| UnicodeEncodeError
| UnicodeDecodeError
| binascii_Error
| JSONDecodeError
| NotImplementedError (msg : pystr)
| StopIteration
| transport (t : transport_error)
| raise_RemoteFileServicesError (e : RemoteFileServicesError)
| raise_RemoteOSError (e : RemoteOSError).

Inductive Result (A : Type) : Type :=
| Ok (a : A)
| Raise (e : exn).
Arguments Ok {A} a.
Arguments Raise {A} e.

Definition bindR {A B} (r : Result A) (k : A -> Result B) : Result B :=
  match r with
  | Ok a => k a
  | Raise e => Raise e
  end.

Declare Scope result_scope.
Delimit Scope result_scope with result.
Notation "x <- r ;; k" := (bindR r (fun x => k))
  (at level 61, r at next level, right associativity) : result_scope.

Fixpoint mapR {A B} (f : A -> Result B) (l : list A) : Result (list B) :=
  match l with
  | [] => Ok []
  | a :: l' =>
      (b <- f a ;; bs <- mapR f l' ;; Ok (b :: bs))%result
  end.

(** [data[key]] for a string key. *)
Definition getitem (data : pyval) (key : pystr) : Result pyval :=
  match data with
  | PyDict d =>
      match dict_lookup key d with
      | Some v => Ok v
      | None => Raise (KeyError key)
      end
  | _ => Raise TypeError
  end.

(** [data.get(key, default)]. *)
Definition get (data : pyval) (key : pystr) (default : pyval) : Result pyval :=
  match data with
  | PyDict d =>
      match dict_lookup key d with
      | Some v => Ok v
      | None => Ok default
      end
  | _ => Raise AttributeError
  end.

(** [x > n] for an integer constant [n]. *)
Definition gt_int (v : pyval) (n : Z) : Result bool :=
  match as_int v with
  | Some m => Ok (n <? m)
  | None => Raise TypeError
  end.

Module HTTPStatus.
Definition BAD_REQUEST : Z := 400.
Definition EXPECTATION_FAILED : Z := 417.
Definition LOCKED : Z := 423.
Definition INTERNAL_SERVER_ERROR : Z := 500.
End HTTPStatus.

(** [RemoteOSError.__init__]: the [OSError] initialiser, then the
    initialiser of [RemoteFileServicesError] with the class [OSError],
    the [OSError] text, the url and an empty list. *)
Definition RemoteOSError_init (errno strerror filename : pyval) (url : pystr)
  : RemoteOSError :=
  mkRemoteOSError errno strerror filename
    (RemoteFileServicesError_init OSError_class
       (OSError_str errno strerror filename) url (PyList [])).

Definition from_json (data : pyval) (url : pystr) : Result RemoteOSError :=
  (e <- getitem data (str "errno") ;;
   s <- getitem data (str "strerror") ;;
   f <- getitem data (str "filename") ;;
   Ok (RemoteOSError_init e s f url))%result.

(** ** The library codecs used by the payload codec *)

(** [base64.b64encode] and [base64.b64decode] (RFC 4648, standard
    alphabet).  The decoder is the interpreter's default, non validating
    one: characters outside the alphabet are skipped, input after a
    complete padding is ignored, and a quantum left incomplete at the end
    is reported as [binascii.Error]. *)
Module base64.

Definition table_b2a_base64 : pybytes :=
  list_byte_of_string
    "ABCDEFGHIJKLMNOPQRSTUVWXYZabcdefghijklmnopqrstuvwxyz0123456789+/".

Definition BASE64_PAD : byte := byte_of_Z 61.

Definition b2a (n : Z) : byte := nth (Z.to_nat n) table_b2a_base64 BASE64_PAD.

Fixpoint index_of (c : byte) (t : pybytes) (i : Z) : option Z :=
  match t with
  | [] => None
  | x :: t' => if Byte.eqb c x then Some i else index_of c t' (i + 1)
  end.

Definition a2b (c : byte) : option Z := index_of c table_b2a_base64 0.

Fixpoint b64encode (s : pybytes) : pybytes :=
  match s with
  | [] => []
  | [b0] =>
      [b2a (Zb b0 / 4); b2a (Zb b0 mod 4 * 16); BASE64_PAD; BASE64_PAD]
  | [b0; b1] =>
      [b2a (Zb b0 / 4); b2a (Zb b0 mod 4 * 16 + Zb b1 / 16);
       b2a (Zb b1 mod 16 * 4); BASE64_PAD]
  | b0 :: b1 :: b2 :: rest =>
      b2a (Zb b0 / 4) :: b2a (Zb b0 mod 4 * 16 + Zb b1 / 16)
      :: b2a (Zb b1 mod 16 * 4 + Zb b2 / 64) :: b2a (Zb b2 mod 64)
      :: b64encode rest
  end.

Definition emit (b : Z) (r : option pybytes) : option pybytes :=
  match r with
  | Some l => Some (byte_of_Z (b mod 256) :: l)
  | None => None
  end.

(** The decoding loop: [quad_pos] is the position in the current
    quantum of four characters, [leftchar] the bits not yet written,
    [pads] the padding characters seen since the last data character.
    [None] is [binascii.Error]. *)
Fixpoint a2b_loop (ascii : pybytes) (quad_pos leftchar pads : Z)
  : option pybytes :=
  match ascii with
  | [] => if quad_pos =? 0 then Some [] else None
  | c :: rest =>
      if Byte.eqb c BASE64_PAD then
        if (2 <=? quad_pos) && (4 <=? quad_pos + (pads + 1)) then Some []
        else a2b_loop rest quad_pos leftchar
               (if 2 <=? quad_pos then pads + 1 else pads)
      else
        match a2b c with
        | None => a2b_loop rest quad_pos leftchar pads
        | Some v =>
            if quad_pos =? 0 then a2b_loop rest 1 v 0
            else if quad_pos =? 1 then
              emit (leftchar * 4 + v / 16) (a2b_loop rest 2 (v mod 16) 0)
            else if quad_pos =? 2 then
              emit (leftchar * 16 + v / 4) (a2b_loop rest 3 (v mod 4) 0)
            else
              emit (leftchar * 64 + v) (a2b_loop rest 0 0 0)
        end
  end.

(** The check that a sextet survives the two tables, is not written
    as the padding character and is written as an ASCII character. *)
Definition sextet_ok (n : Z) : bool :=
  match a2b (b2a n) with
  | Some m => (m =? n) && negb (Byte.eqb (b2a n) BASE64_PAD)
              && (Zb (b2a n) <? 128)
  | None => false
  end.

Definition a2b_base64 (ascii : pybytes) : Result pybytes :=
  match a2b_loop ascii 0 0 0 with
  | Some b => Ok b
  | None => Raise binascii_Error
  end.

End base64.

(** [str.encode(encoding)] and [bytes.decode(encoding)] with the default
    strict error handling, for the codecs [ascii], [latin-1] and [utf-8]
    of the interpreter's registry; any other name is reported as
    [LookupError]. *)
Module codecs.

Inductive Codec : Type := ascii | latin_1 | utf_8.

Definition names : list (pystr * Codec) :=
  [ (str "utf-8", utf_8); (str "utf8", utf_8); (str "UTF-8", utf_8);
    (str "utf_8", utf_8);
    (str "ascii", ascii); (str "us-ascii", ascii); (str "ASCII", ascii);
    (str "latin-1", latin_1); (str "latin1", latin_1);
    (str "iso-8859-1", latin_1) ].

Fixpoint assoc (k : pystr) (t : list (pystr * Codec)) : option Codec :=
  match t with
  | [] => None
  | (k', c) :: t' => if str_eqb k k' then Some c else assoc k t'
  end.

Definition lookup (encoding : pystr) : Result Codec :=
  match assoc encoding names with
  | Some c => Ok c
  | None => Raise LookupError
  end.

(** One code point, as UTF-8; [None] for a surrogate or a number that
    is not a code point. *)
Definition utf8_encode_char (c : Z) : option pybytes :=
  if c <? 0 then None
  else if c <? 128 then Some [byte_of_Z c]
  else if c <? 2048 then
    Some [byte_of_Z (192 + c / 64); byte_of_Z (128 + c mod 64)]
  else if c <? 65536 then
    if (55296 <=? c) && (c <=? 57343) then None
    else Some [byte_of_Z (224 + c / 4096);
               byte_of_Z (128 + c / 64 mod 64);
               byte_of_Z (128 + c mod 64)]
  else if c <? 1114112 then
    Some [byte_of_Z (240 + c / 262144);
          byte_of_Z (128 + c / 4096 mod 64);
          byte_of_Z (128 + c / 64 mod 64);
          byte_of_Z (128 + c mod 64)]
  else None.

Definition encode_char (codec : Codec) (c : Z) : option pybytes :=
  match codec with
  | ascii => if (0 <=? c) && (c <? 128) then Some [byte_of_Z c] else None
  | latin_1 => if (0 <=? c) && (c <? 256) then Some [byte_of_Z c] else None
  | utf_8 => utf8_encode_char c
  end.

Fixpoint encode_with (codec : Codec) (s : pystr) : option pybytes :=
  match s with
  | [] => Some []
  | c :: s' =>
      match encode_char codec c, encode_with codec s' with
      | Some b, Some bs => Some (b ++ bs)
      | _, _ => None
      end
  end.

Definition cont (b : byte) : bool := (128 <=? Zb b) && (Zb b <? 192).

Definition cons_opt (c : Z) (r : option pystr) : option pystr :=
  match r with
  | Some s => Some (c :: s)
  | None => None
  end.

(** Strict UTF-8 decoding: overlong forms, surrogates, numbers above
    U+10FFFF and truncated sequences are errors. *)
Fixpoint utf8_decode (b : pybytes) : option pystr :=
  match b with
  | [] => Some []
  | b0 :: r0 =>
      if Zb b0 <? 128 then cons_opt (Zb b0) (utf8_decode r0)
      else if (194 <=? Zb b0) && (Zb b0 <? 224) then
        match r0 with
        | b1 :: r1 =>
            if cont b1 then
              cons_opt ((Zb b0 - 192) * 64 + (Zb b1 - 128)) (utf8_decode r1)
            else None
        | _ => None
        end
      else if (224 <=? Zb b0) && (Zb b0 <? 240) then
        match r0 with
        | b1 :: b2 :: r2 =>
            let c := (Zb b0 - 224) * 4096 + (Zb b1 - 128) * 64
                     + (Zb b2 - 128) in
            if cont b1 && cont b2 && (2048 <=? c)
               && negb ((55296 <=? c) && (c <=? 57343))
            then cons_opt c (utf8_decode r2)
            else None
        | _ => None
        end
      else if (240 <=? Zb b0) && (Zb b0 <? 245) then
        match r0 with
        | b1 :: b2 :: b3 :: r3 =>
            let c := (Zb b0 - 240) * 262144 + (Zb b1 - 128) * 4096
                     + (Zb b2 - 128) * 64 + (Zb b3 - 128) in
            if cont b1 && cont b2 && cont b3
               && (65536 <=? c) && (c <? 1114112)
            then cons_opt c (utf8_decode r3)
            else None
        | _ => None
        end
      else None
  end.

Fixpoint ascii_decode (b : pybytes) : option pystr :=
  match b with
  | [] => Some []
  | b0 :: r => if Zb b0 <? 128 then cons_opt (Zb b0) (ascii_decode r)
               else None
  end.

Definition decode_with (codec : Codec) (b : pybytes) : option pystr :=
  match codec with
  | ascii => ascii_decode b
  | latin_1 => Some (map Zb b)
  | utf_8 => utf8_decode b
  end.

(** [s.encode(encoding)] *)
Definition encode (s : pystr) (encoding : pystr) : Result pybytes :=
  (codec <- lookup encoding ;;
   match encode_with codec s with
   | Some b => Ok b
   | None => Raise UnicodeEncodeError
   end)%result.

(** [b.decode(encoding)] *)
Definition decode (b : pybytes) (encoding : pystr) : Result pystr :=
  (codec <- lookup encoding ;;
   match decode_with codec b with
   | Some s => Ok s
   | None => Raise UnicodeDecodeError
   end)%result.

End codecs.

(** [base64.b64decode(s)] for a [str] argument: the text is first turned
    into ASCII bytes ([ValueError] if it has any other character). *)
Definition b64decode (s : pystr) : Result pybytes :=
  match codecs.encode_with codecs.ascii s with
  | Some ascii => base64.a2b_base64 ascii
  | None => Raise ValueError
  end.

Definition b64encode (s : pybytes) : pybytes := base64.b64encode s.

(** ** Stateful code: a state and exception monad *)

Definition M (S A : Type) : Type := S -> Result A * S.

Definition ret {S A} (a : A) : M S A := fun s => (Ok a, s).

Definition raise {S A} (e : exn) : M S A := fun s => (Raise e, s).

Definition lift {S A} (r : Result A) : M S A := fun s => (r, s).

Definition bind {S A B} (m : M S A) (k : A -> M S B) : M S B :=
  fun s =>
    match m s with
    | (Ok a, s') => k a s'
    | (Raise e, s') => (Raise e, s')
    end.

(** [try: m  except Exception as e: handler e] *)
Definition try_except {S A} (m : M S A) (handler : exn -> M S A) : M S A :=
  fun s =>
    match m s with
    | (Ok a, s') => (Ok a, s')
    | (Raise e, s') => handler e s'
    end.

Declare Scope io_scope.
Delimit Scope io_scope with io.
Notation "x <- m ;; k" := (bind m (fun x => k))
  (at level 61, m at next level, right associativity) : io_scope.
Notation "m ;; k" := (bind m (fun _ => k))
  (at level 61, right associativity) : io_scope.

(** ** The transport (aiohttp) *)

(** A payload carried by a frame or a response body.  A text or bytes
    payload is represented by the value that [json.loads] returns for it
    ([None] when the text is not JSON), the only use the client makes of
    it; [Obj] is any other object (a close code, [None]). *)
Inductive payload : Type :=
| Obj (v : pyval)
| Text (loads : option pyval).

(** [p == n] for an integer constant [n]: a text is never equal to it. *)
Definition payload_eq_int (p : payload) (n : Z) : bool :=
  match p with
  | Obj v => eq_int v n
  | Text _ => false
  end.

Module json.
Definition loads (p : payload) : Result pyval :=
  match p with
  | Text (Some v) => Ok v
  | Text None => Raise JSONDecodeError
  | Obj _ => Raise TypeError
  end.
End json.

Module aiohttp.

Inductive WSMsgType : Type :=
| CONTINUATION | TEXT | BINARY | PING | PONG | CLOSE | CLOSING | CLOSED
| ERROR.

Definition WSMsgType_eqb (a b : WSMsgType) : bool :=
  match a, b with
  | CONTINUATION, CONTINUATION | TEXT, TEXT | BINARY, BINARY
  | PING, PING | PONG, PONG | CLOSE, CLOSE | CLOSING, CLOSING
  | CLOSED, CLOSED | ERROR, ERROR => true
  | _, _ => false
  end.

Record WSMessage : Type := mkWSMessage {
  type : WSMsgType;
  data : payload;
  extra : payload
}.

Definition WS_CLOSED_MESSAGE : WSMessage :=
  mkWSMessage CLOSED (Obj PyNone) (Obj PyNone).

(** A websocket: the frames the server is still to deliver, the
    requests sent so far, and the url of the handshake response. *)
Record ClientWebSocketResponse : Type := mkClientWebSocketResponse {
  incoming : list WSMessage;
  sent : list pyval;
  closed : bool;
  _response_url : pystr
}.

(** [receive()]: the next frame; the closed marker once the socket is
    closed; a wait that the server never answers ends in
    [TimeoutError]. *)
Definition receive : M ClientWebSocketResponse WSMessage :=
  fun ws =>
    if closed ws then (Ok WS_CLOSED_MESSAGE, ws)
    else
      match incoming ws with
      | [] => (Raise (transport TimeoutError), ws)
      | m :: rest =>
          (Ok m, mkClientWebSocketResponse rest (sent ws) (closed ws)
                   (_response_url ws))
      end.

(** [receive_bytes()]: [receive], refusing a frame that is not binary. *)
Definition receive_bytes : M ClientWebSocketResponse payload :=
  (msg <- receive ;;
   if WSMsgType_eqb (type msg) BINARY then ret (data msg)
   else raise TypeError)%io.

Definition send_json (obj : pyval) : M ClientWebSocketResponse unit :=
  fun ws =>
    if closed ws then (Raise (transport ConnectionResetError), ws)
    else (Ok tt, mkClientWebSocketResponse (incoming ws) (sent ws ++ [obj])
                   false (_response_url ws)).

Definition close : M ClientWebSocketResponse unit :=
  fun ws =>
    (Ok tt, mkClientWebSocketResponse (incoming ws) (sent ws) true
              (_response_url ws)).

Record ws_connect_call : Type := mk_ws_connect_call {
  ws_url : pystr;
  ws_params : list (pystr * pystr)
}.

Inductive verb : Type := GET | POST | DELETE.

Record request_call : Type := mk_request_call {
  req_verb : verb;
  req_url : list pystr;
  req_params : list (pystr * pystr)
}.

Record ClientResponse : Type := mkClientResponse {
  status : Z;
  url : pystr;
  body : payload;
  _in_context : bool;
  released : bool
}.

Definition release (r : ClientResponse) : ClientResponse :=
  mkClientResponse (status r) (url r) (body r) (_in_context r) true.

(** [response.json()] *)
Definition response_json : M ClientResponse pyval :=
  fun r => (json.loads (body r), r).

(** [response.raise_for_status()] *)
Definition raise_for_status : M ClientResponse unit :=
  fun r =>
    if 400 <=? status r then
      (Raise (transport (ClientResponseError (status r))),
       if _in_context r then r else release r)
    else (Ok tt, r).

(** The session: what the server will answer to the coming websocket
    connections and requests, and the calls made so far. *)
Record ClientSession : Type := mkClientSession {
  ws_answers : list (transport_error + ClientWebSocketResponse);
  ws_calls : list ws_connect_call;
  answers : list (transport_error + ClientResponse);
  calls : list request_call
}.

Definition ws_connect (u : pystr) (params : list (pystr * pystr))
  : M ClientSession ClientWebSocketResponse :=
  fun s =>
    let log := ws_calls s ++ [mk_ws_connect_call u params] in
    match ws_answers s with
    | [] => (Raise (transport ClientConnectionError),
             mkClientSession [] log (answers s) (calls s))
    | r :: rest =>
        (match r with inl e => Raise (transport e) | inr ws => Ok ws end,
         mkClientSession rest log (answers s) (calls s))
    end.

(** The transfer of one request, before the status is looked at. *)
Definition transfer (v : verb) (u : list pystr)
  (params : list (pystr * pystr)) : M ClientSession ClientResponse :=
  fun s =>
    let log := calls s ++ [mk_request_call v u params] in
    match answers s with
    | [] => (Raise (transport ClientConnectionError),
             mkClientSession (ws_answers s) (ws_calls s) [] log)
    | r :: rest =>
        (match r with inl e => Raise (transport e) | inr x => Ok x end,
         mkClientSession (ws_answers s) (ws_calls s) rest log)
    end.

End aiohttp.

(** [str(b).lower()] for a [bool]. *)
Definition str_lower_bool (b : bool) : pystr :=
  if b then str "true" else str "false".

Definition SPYDER_PLUGIN_NAME : pystr := str "spyder-services".

(** ** class SpyderRemoteFileIOAPI *)

Module SpyderRemoteFileIOAPI.

Import aiohttp.

Definition base_url : pystr := SPYDER_PLUGIN_NAME ++ str "/fsspec/open".

(** The object: the attributes set by [__init__], the session of the
    base class, and the closed flag of the [FileIO] part. *)
Record t : Type := mk {
  name : pystr;
  mode : pystr;
  encoding : pystr;
  atomic : bool;
  lock : bool;
  _websocket : option ClientWebSocketResponse;
  session : ClientSession;
  super_closed : bool
}.

Definition __init__ (file mode encoding : pystr) (atomic lock : bool)
  (session : ClientSession) : t :=
  mk file mode encoding atomic lock None session false.

Definition set_websocket (w : option ClientWebSocketResponse) (self : t) : t :=
  mk (name self) (mode self) (encoding self) (atomic self) (lock self)
     w (session self) (super_closed self).

Definition set_session (s : ClientSession) (self : t) : t :=
  mk (name self) (mode self) (encoding self) (atomic self) (lock self)
     (_websocket self) s (super_closed self).

Definition set_super_closed (b : bool) (self : t) : t :=
  mk (name self) (mode self) (encoding self) (atomic self) (lock self)
     (_websocket self) (session self) b.

(** A method call on [self._websocket]; [AttributeError] when the
    attribute is [None]. *)
Definition on_websocket {A} (m : M ClientWebSocketResponse A) : M t A :=
  fun self =>
    match _websocket self with
    | None => (Raise AttributeError, self)
    | Some ws =>
        let '(r, ws') := m ws in (r, set_websocket (Some ws') self)
    end.

Definition on_session {A} (m : M ClientSession A) : M t A :=
  fun self => let '(r, s') := m (session self) in (r, set_session s' self).

(** [self._websocket._response.url] *)
Definition response_url : M t pystr :=
  on_websocket (fun ws => (Ok (_response_url ws), ws)).

Definition _check_connection : M t unit :=
  (status <- on_websocket receive ;;
   if WSMsgType_eqb (type status) CLOSE then
     on_websocket close ;;
     if payload_eq_int (data status) 1002 then
       data <- lift (json.loads (extra status)) ;;
       st <- lift (getitem data (str "status")) ;;
       if eq_int st HTTPStatus.LOCKED
          || eq_int st HTTPStatus.EXPECTATION_FAILED
       then
         u <- response_url ;;
         e <- lift (from_json data u) ;;
         raise (raise_RemoteOSError e)
       else
         ty <- lift (get data (str "type") (PyStr (str "UnknownError"))) ;;
         msg <- lift (get data (str "message") (PyStr (str "Unknown error"))) ;;
         u <- response_url ;;
         tb <- lift (get data (str "tracebacks") (PyList [])) ;;
         raise (raise_RemoteFileServicesError
                  (RemoteFileServicesError_init (Val ty) (Val msg) u tb))
     else
       u <- response_url ;;
       raise (raise_RemoteFileServicesError
                (RemoteFileServicesError_init
                   (Val (PyStr (str "UnknownError")))
                   (Val (PyStr (str "Failed to open file"))) u (PyList [])))
   else ret tt)%io.

(** The call [self.session.ws_connect(...)] made by [connect]. *)
Definition connect_call (self : t) : ws_connect_call :=
  mk_ws_connect_call (base_url ++ str "/file://" ++ name self)
    [ (str "mode", mode self);
      (str "atomic", str_lower_bool (atomic self));
      (str "lock", str_lower_bool (lock self));
      (str "encoding", encoding self) ].

(** [await self.session.ws_connect(...)] *)
Definition session_ws_connect : M t ClientWebSocketResponse :=
  fun self =>
    on_session
      (ws_connect (ws_url (connect_call self)) (ws_params (connect_call self)))
      self.

Definition connect : M t unit :=
  fun self =>
    match _websocket self with
    | Some _ => (Ok tt, self)
    | None =>
        (ws <- session_ws_connect ;;
         (fun self' => (Ok tt, set_websocket (Some ws) self')) ;;
         try_except _check_connection
           (fun e =>
              (fun self' => (Ok tt, set_websocket None self')) ;;
              raise e))%io self
    end.

Definition __aenter__ : M t unit := connect.

(** Modelled from the spec: [super().close()], the close method of the
    base classes, which is not part of the sources at hand; "it closes
    the transport and the handle, moving the state to Closed". *)
Definition super_close : M t unit :=
  fun self => (Ok tt, set_super_closed true self).

Definition close : M t unit :=
  (on_websocket aiohttp.close ;; super_close)%io.

Definition closed : M t bool :=
  (c <- on_websocket (fun ws => (Ok (aiohttp.closed ws), ws)) ;;
   fun self => (Ok (c && super_closed self), self))%io.

(** ["b" in self.mode] *)
Definition binary_mode (self : t) : bool :=
  existsb (fun c => c =? 98) (mode self).

Definition _decode_data (self : t) (data : pyval) : Result pyval :=
  match data with
  | PyStr s =>
      if binary_mode self then
        (b <- b64decode s ;; Ok (PyBytes b))%result
      else
        (b <- b64decode s ;;
         x <- codecs.decode b (encoding self) ;;
         Ok (PyStr x))%result
  | _ => Ok data
  end.

Definition _encode_data (self : t) (data : pyval) : Result pyval :=
  match data with
  | PyBytes b =>
      (x <- codecs.decode (b64encode b) (str "ascii") ;; Ok (PyStr x))%result
  | PyStr s =>
      (b <- codecs.encode s (encoding self) ;;
       x <- codecs.decode (b64encode b) (str "ascii") ;;
       Ok (PyStr x))%result
  | _ => Ok data
  end.

Definition _send_request (method : pystr) (args : list (pystr * pyval))
  : M t unit :=
  on_websocket (send_json (PyDict ((str "method", PyStr method) :: args))).

(** The [timeout] argument bounds the wait inside [receive_bytes];
    what the wait ends in is part of the websocket's state. *)
Definition _get_response : M t pyval :=
  (raw <- on_websocket receive_bytes ;;
   message <- lift (json.loads raw) ;;
   st <- lift (getitem message (str "status")) ;;
   above <- lift (gt_int st HTTPStatus.BAD_REQUEST) ;;
   if above : bool then
     if eq_int st HTTPStatus.EXPECTATION_FAILED then
       u <- response_url ;;
       e <- lift (from_json message u) ;;
       raise (raise_RemoteOSError e)
     else
       ty <- lift (get message (str "type") (PyStr (str "UnknownError"))) ;;
       msg <- lift (get message (str "message")
                      (PyStr (str "Unknown error"))) ;;
       u <- response_url ;;
       tb <- lift (get message (str "tracebacks") (PyList [])) ;;
       raise (raise_RemoteFileServicesError
                (RemoteFileServicesError_init (Val ty) (Val msg) u tb))
   else
     data <- lift (get message (str "data") PyNone) ;;
     fun self =>
       match data with
       | PyNone => (Ok PyNone, self)
       | PyList l =>
           ((ds <- mapR (_decode_data self) l ;; Ok (PyList ds))%result,
            self)
       | _ => (_decode_data self data, self)
       end)%io.

Definition closefd : bool := true.

(** [self._encode_data(x)] inside a method. *)
Definition encoded (x : pyval) : M t pyval :=
  fun self => (_encode_data self x, self).

Definition write (s : pyval) : M t pyval :=
  (d <- encoded s ;;
   _send_request (str "write") [(str "data", d)] ;;
   _get_response)%io.

Definition flush : M t pyval :=
  (_send_request (str "flush") [] ;; _get_response)%io.

Definition read (size : Z) : M t pyval :=
  (_send_request (str "read") [(str "n", PyInt size)] ;; _get_response)%io.

Definition readall : M t pyval := read (-1).

Definition readinto (b : pyval) : M t pyval :=
  raise (NotImplementedError
           (str "readinto() is not supported by the remote file API")).

Definition seek (pos whence : Z) : M t pyval :=
  (_send_request (str "seek")
     [(str "offset", PyInt pos); (str "whence", PyInt whence)] ;;
   _get_response)%io.

Definition tell : M t pyval :=
  (_send_request (str "tell") [] ;; _get_response)%io.

Definition truncate (size : option Z) : M t pyval :=
  (_send_request (str "truncate")
     [(str "size", match size with Some n => PyInt n | None => PyNone end)] ;;
   _get_response)%io.

Definition fileno : M t pyval :=
  (_send_request (str "fileno") [] ;; _get_response)%io.

Definition readline (size : Z) : M t pyval :=
  (_send_request (str "readline") [(str "size", PyInt size)] ;;
   _get_response)%io.

Definition readlines (hint : Z) : M t pyval :=
  (_send_request (str "readlines") [(str "hint", PyInt hint)] ;;
   _get_response)%io.

Definition writelines (lines : list pyval) : M t pyval :=
  (ls <- (fun self => (mapR (_encode_data self) lines, self)) ;;
   _send_request (str "writelines") [(str "lines", PyList ls)] ;;
   _get_response)%io.

Definition isatty : M t pyval :=
  (_send_request (str "isatty") [] ;; _get_response)%io.

Definition readable : M t pyval :=
  (_send_request (str "readable") [] ;; _get_response)%io.

Definition writable : M t pyval :=
  (_send_request (str "writable") [] ;; _get_response)%io.

Definition __next__ : M t pyval :=
  (response <- readline (-1) ;;
   if truthy response then ret response else raise StopIteration)%io.

(** How a run of the generator [__iter__] ends. *)
Inductive ending : Type :=
| Exhausted
| Raised (e : exn)
| Running.

(** The generator [__iter__], driven to its end: the values it yields,
    how it ends, and the object afterwards.  [fuel] bounds the number
    of turns of the [while] loop; [Running] is a run cut by it. *)
Fixpoint __iter__ (fuel : nat) (self : t) : list pyval * ending * t :=
  match fuel with
  | O => ([], Running, self)
  | S fuel' =>
      match readline (-1) self with
      | (Raise e, self') => ([], Raised e, self')
      | (Ok response, self') =>
          if truthy response then
            let '(ys, end_, self'') := __iter__ fuel' self' in
            (response :: ys, end_, self'')
          else ([], Exhausted, self')
      end
  end.

End SpyderRemoteFileIOAPI.

(** ** class SpyderRemoteFileServicesAPI *)

Module SpyderRemoteFileServicesAPI.

Import aiohttp.

Definition base_url : pystr := SPYDER_PLUGIN_NAME ++ str "/fsspec".

Record t : Type := mk { session : ClientSession }.

Definition _raise_for_status : M ClientResponse unit :=
  fun response =>
    if negb ((status response =? HTTPStatus.INTERNAL_SERVER_ERROR)
             || (status response =? HTTPStatus.EXPECTATION_FAILED))
    then raise_for_status response
    else
      (data <- try_except response_json
                 (fun e =>
                    match e with
                    | JSONDecodeError => ret (PyDict [])
                    | _ => raise e
                    end) ;;
       (fun r => (Ok tt, if _in_context r then r else release r)) ;;
       if status response =? HTTPStatus.EXPECTATION_FAILED then
         e <- lift (from_json data (url response)) ;;
         raise (raise_RemoteOSError e)
       else
         ty <- lift (get data (str "type") (PyStr (str "UnknownError"))) ;;
         msg <- lift (get data (str "message")
                        (PyStr (str "Unknown error"))) ;;
         tb <- lift (get data (str "tracebacks") (PyList [])) ;;
         raise (raise_RemoteFileServicesError
                  (RemoteFileServicesError_init (Val ty) (Val msg)
                     (url response) tb)))%io response.

(** Modelled from the spec: the request methods of [self.session], set
    up by the base class, which is not part of the sources at hand.
    "Each operation issues one outbound call, and on a response whose
    status is an internal-error or expectation-failure code, applies
    the response-body error-or-default extraction of 4.4 before
    raising; any other non-success status is surfaced as a generic
    transport-level error unchanged": the session hands every response
    to [_raise_for_status] before the caller sees it. *)
Definition request (v : verb) (u : list pystr)
  (params : list (pystr * pystr)) : M t ClientResponse :=
  fun self =>
    match transfer v u params (session self) with
    | (Raise e, s') => (Raise e, mk s')
    | (Ok response, s') =>
        match _raise_for_status response with
        | (Ok _, response') => (Ok response', mk s')
        | (Raise e, _) => (Raise e, mk s')
        end
    end.

(** [async with <request> as response: return await response.json()] *)
Definition with_json (m : M t ClientResponse) : M t pyval :=
  (response <- m ;; lift (fst (response_json response)))%io.

Definition file_url (endpoint path : pystr) : list pystr :=
  [base_url; endpoint; str "file://" ++ path].

Definition ls (path : pystr) (detail : bool) : M t pyval :=
  with_json (request GET (file_url (str "ls") path)
               [(str "detail", str_lower_bool detail)]).

Definition info (path : pystr) : M t pyval :=
  with_json (request GET (file_url (str "info") path) []).

Definition exists_ (path : pystr) : M t pyval :=
  with_json (request GET (file_url (str "exists") path) []).

Definition is_file (path : pystr) : M t pyval :=
  with_json (request GET (file_url (str "isfile") path) []).

Definition is_dir (path : pystr) : M t pyval :=
  with_json (request GET (file_url (str "isdir") path) []).

Definition mkdir (path : pystr) (create_parents exist_ok : bool)
  : M t pyval :=
  with_json (request POST (file_url (str "mkdir") path)
               [(str "create_parents", str_lower_bool create_parents);
                (str "exist_ok", str_lower_bool exist_ok)]).

Definition rmdir (path : pystr) : M t pyval :=
  with_json (request DELETE (file_url (str "rmdir") path) []).

Definition unlink (path : pystr) (missing_ok : bool) : M t pyval :=
  with_json (request DELETE (file_url (str "file") path)
               [(str "missing_ok", str_lower_bool missing_ok)]).

Definition copy (path1 path2 : pystr) : M t pyval :=
  with_json (request POST (file_url (str "copy") path1)
               [(str "dest", str "file://" ++ path2)]).

Definition copy2 (path1 path2 : pystr) : M t pyval :=
  with_json (request POST (file_url (str "copy") path1)
               [(str "dest", str "file://" ++ path2);
                (str "metadata", str "true")]).

Definition replace (path1 path2 : pystr) : M t pyval :=
  with_json (request POST (file_url (str "move") path1)
               [(str "dest", str "file://" ++ path2)]).

Definition touch (path : pystr) (truncate : bool) : M t pyval :=
  with_json (request POST (file_url (str "touch") path)
               [(str "truncate", str_lower_bool truncate)]).

(** A call of one of the metadata operations, with its arguments. *)
Inductive operation : Type :=
| op_ls (path : pystr) (detail : bool)
| op_info (path : pystr)
| op_exists (path : pystr)
| op_is_file (path : pystr)
| op_is_dir (path : pystr)
| op_mkdir (path : pystr) (create_parents exist_ok : bool)
| op_rmdir (path : pystr)
| op_unlink (path : pystr) (missing_ok : bool)
| op_copy (path1 path2 : pystr)
| op_copy2 (path1 path2 : pystr)
| op_replace (path1 path2 : pystr)
| op_touch (path : pystr) (truncate : bool).

Definition call (op : operation) : M t pyval :=
  match op with
  | op_ls p d => ls p d
  | op_info p => info p
  | op_exists p => exists_ p
  | op_is_file p => is_file p
  | op_is_dir p => is_dir p
  | op_mkdir p c e => mkdir p c e
  | op_rmdir p => rmdir p
  | op_unlink p m => unlink p m
  | op_copy p q => copy p q
  | op_copy2 p q => copy2 p q
  | op_replace p q => replace p q
  | op_touch p tr => touch p tr
  end.


End SpyderRemoteFileServicesAPI.

(** ** Notions used to state the properties *)



(** ** Sample objects *)

Definition no_answers : aiohttp.ClientSession :=
  aiohttp.mkClientSession [] [] [] [].

Definition text_handle : SpyderRemoteFileIOAPI.t :=
  SpyderRemoteFileIOAPI.__init__ (str "/tmp/notes.txt") (str "r")
    (str "utf-8") false false no_answers.


(** "h", e acute, the euro sign and an emoji. *)
Definition sample_text : pystr := [104; 233; 8364; 128512].



(** A method keeps a relation between the object before and after. *)
Definition keeps {S A} (R : S -> S -> Prop) (m : M S A) : Prop :=
  forall s, R s (snd (m s)).

(** Nothing but the websocket changed, and a websocket that was there
    still is. *)
Definition only_websocket (s s' : SpyderRemoteFileIOAPI.t) : Prop :=
  SpyderRemoteFileIOAPI.set_websocket None s'
  = SpyderRemoteFileIOAPI.set_websocket None s
  /\ (SpyderRemoteFileIOAPI._websocket s <> None ->
      SpyderRemoteFileIOAPI._websocket s' <> None).

Definition sample_ws : aiohttp.ClientWebSocketResponse :=
  aiohttp.mkClientWebSocketResponse [] [] false (str "ws://hub/open").

Definition connected_handle : SpyderRemoteFileIOAPI.t :=
  SpyderRemoteFileIOAPI.set_websocket (Some sample_ws) text_handle.


(** A field of a JSON object, or a default when the object lacks it. *)
Definition field_or (d : list (pystr * pyval)) (k : pystr) (default : pyval)
  : pyval :=
  match dict_lookup k d with
  | Some v => v
  | None => default
  end.

(** The diagnostic of a server that found the file locked, with a
    traceback of its own, and the websocket of such a refused session. *)
Definition locked_diagnostic : list (pystr * pyval) :=
  [ (str "status", PyInt 423); (str "errno", PyInt 11);
    (str "strerror", PyStr (str "Resource temporarily unavailable"));
    (str "filename", PyStr (str "/tmp/notes.txt"));
    (str "tracebacks", PyList [PyStr (str "Traceback (most recent call last)")]) ].

Definition refused_ws : aiohttp.ClientWebSocketResponse :=
  aiohttp.mkClientWebSocketResponse
    [ aiohttp.mkWSMessage aiohttp.CLOSE (Obj (PyInt 1002))
        (Text (Some (PyDict locked_diagnostic))) ]
    [] false (str "ws://hub/open").

Definition refused_handle : SpyderRemoteFileIOAPI.t :=
  SpyderRemoteFileIOAPI.__init__ (str "/tmp/notes.txt") (str "r")
    (str "utf-8") false true
    (aiohttp.mkClientSession [inr refused_ws] [] [] []).


(** The websocket once its first frame is taken, and once it is closed. *)
Definition with_incoming (l : list aiohttp.WSMessage)
  (ws : aiohttp.ClientWebSocketResponse) : aiohttp.ClientWebSocketResponse :=
  aiohttp.mkClientWebSocketResponse l (aiohttp.sent ws) (aiohttp.closed ws)
    (aiohttp._response_url ws).

Definition with_closed (b : bool)
  (ws : aiohttp.ClientWebSocketResponse) : aiohttp.ClientWebSocketResponse :=
  aiohttp.mkClientWebSocketResponse (aiohttp.incoming ws) (aiohttp.sent ws) b
    (aiohttp._response_url ws).

(** The generic service error built from a JSON object, with the
    defaults for the fields it lacks. *)
Definition service_error_of (d : list (pystr * pyval)) (u : pystr)
  : RemoteFileServicesError :=
  RemoteFileServicesError_init
    (Val (field_or d (str "type") (PyStr (str "UnknownError"))))
    (Val (field_or d (str "message") (PyStr (str "Unknown error"))))
    u
    (field_or d (str "tracebacks") (PyList [])).



(** A handle whose websocket is about to deliver the given frame. *)
Definition awaiting (frame : aiohttp.WSMessage) : SpyderRemoteFileIOAPI.t :=
  SpyderRemoteFileIOAPI.set_websocket
    (Some (aiohttp.mkClientWebSocketResponse [frame] [] false
             (str "ws://hub/open")))
    text_handle.

Definition closure (code : Z) (diagnostic : payload) : aiohttp.WSMessage :=
  aiohttp.mkWSMessage aiohttp.CLOSE (Obj (PyInt code)) diagnostic.



(** A binary frame that carries the given JSON object. *)
Definition reply (message : list (pystr * pyval)) : aiohttp.WSMessage :=
  aiohttp.mkWSMessage aiohttp.BINARY (Text (Some (PyDict message)))
    (Obj PyNone).

(** An expectation failure reported by the server, with a traceback of
    its own. *)
Definition missing_file : list (pystr * pyval) :=
  [ (str "status", PyInt 417); (str "errno", PyInt 2);
    (str "strerror", PyStr (str "No such file"));
    (str "filename", PyStr (str "/x"));
    (str "tracebacks", PyList [PyStr (str "Traceback (most recent call last)")]) ].


(** A result that, when it is a raised filesystem-style error, carries
    an empty list of tracebacks; and a method all of whose results are
    such. *)
Definition clean {A} (r : Result A) : Prop :=
  forall e, r = Raise (raise_RemoteOSError e) ->
            tracebacks (service_part e) = PyList [].

Definition cleanM {S A} (m : M S A) : Prop :=
  forall s, clean (fst (m s)).

(** A result that is not a raised filesystem-style error at all. *)
Definition not_os {A} (r : Result A) : Prop :=
  match r with
  | Raise (raise_RemoteOSError _) => False
  | _ => True
  end.






Definition missing_file_error : RemoteOSError :=
  RemoteOSError_init (PyInt 2) (PyStr (str "No such file"))
    (PyStr (str "/x")) (str "ws://hub/open").



(** The frames that the server has still to deliver on the websocket. *)
Definition pending (self : SpyderRemoteFileIOAPI.t) : nat :=
  match SpyderRemoteFileIOAPI._websocket self with
  | Some ws => List.length (aiohttp.incoming ws)
  | None => O
  end.


(** A text file of two lines, the end of the file, and a frame that is
    never asked for. *)
Definition two_lines : SpyderRemoteFileIOAPI.t :=
  SpyderRemoteFileIOAPI.set_websocket
    (Some (aiohttp.mkClientWebSocketResponse
             [ reply [(str "status", PyInt 200); (str "data", PyStr (str "YQo="))];
               reply [(str "status", PyInt 200); (str "data", PyStr (str "Ygo="))];
               reply [(str "status", PyInt 200); (str "data", PyStr (str ""))];
               reply [(str "status", PyInt 200); (str "data", PyStr (str "Ywo="))] ]
             [] false (str "ws://hub/open")))
    text_handle.


(** ** The file operations, as calls *)

(** A call of one of the operations of an open file, with its arguments. *)
Inductive file_operation : Type :=
| do_write (s : pyval)
| do_flush
| do_read (size : Z)
| do_readall
| do_seek (pos whence : Z)
| do_tell
| do_truncate (size : option Z)
| do_fileno
| do_readline (size : Z)
| do_readlines (hint : Z)
| do_writelines (lines : list pyval)
| do_isatty
| do_readable
| do_writable.

Definition perform (op : file_operation) : M SpyderRemoteFileIOAPI.t pyval :=
  match op with
  | do_write s => SpyderRemoteFileIOAPI.write s
  | do_flush => SpyderRemoteFileIOAPI.flush
  | do_read size => SpyderRemoteFileIOAPI.read size
  | do_readall => SpyderRemoteFileIOAPI.readall
  | do_seek pos whence => SpyderRemoteFileIOAPI.seek pos whence
  | do_tell => SpyderRemoteFileIOAPI.tell
  | do_truncate size => SpyderRemoteFileIOAPI.truncate size
  | do_fileno => SpyderRemoteFileIOAPI.fileno
  | do_readline size => SpyderRemoteFileIOAPI.readline size
  | do_readlines hint => SpyderRemoteFileIOAPI.readlines hint
  | do_writelines lines => SpyderRemoteFileIOAPI.writelines lines
  | do_isatty => SpyderRemoteFileIOAPI.isatty
  | do_readable => SpyderRemoteFileIOAPI.readable
  | do_writable => SpyderRemoteFileIOAPI.writable
  end.

(** What the codec makes of the payload of a call, before anything is
    sent: the encoded data of a write, the encoded lines of a writelines;
    the other calls carry no payload. *)
Definition encoded_payload (self : SpyderRemoteFileIOAPI.t)
  (op : file_operation) : Result unit :=
  match op with
  | do_write s =>
      (_ <- SpyderRemoteFileIOAPI._encode_data self s ;; Ok tt)%result
  | do_writelines lines =>
      (_ <- mapR (SpyderRemoteFileIOAPI._encode_data self) lines ;; Ok tt)%result
  | _ => Ok tt
  end.



(** A text file whose declared encoding is ASCII, connected. *)
Definition ascii_handle : SpyderRemoteFileIOAPI.t :=
  SpyderRemoteFileIOAPI.set_websocket (Some sample_ws)
    (SpyderRemoteFileIOAPI.__init__ (str "/tmp/plain.txt") (str "w")
       (str "ascii") false false no_answers).











(** A session whose server accepts the connection and opens the file. *)
Definition welcoming_ws : aiohttp.ClientWebSocketResponse :=
  aiohttp.mkClientWebSocketResponse
    [aiohttp.mkWSMessage aiohttp.TEXT (Text None) (Obj PyNone)] [] false
    (str "ws://hub/open").

Definition welcome_session : aiohttp.ClientSession :=
  aiohttp.mkClientSession [inr welcoming_ws] [] [] [].

Definition welcomed_handle : SpyderRemoteFileIOAPI.t :=
  SpyderRemoteFileIOAPI.__init__ (str "/tmp/notes.txt") (str "r")
    (str "utf-8") false false welcome_session.

(** A session that cannot be set up: the wait for the connection times
    out. *)
Definition unreachable_handle : SpyderRemoteFileIOAPI.t :=
  SpyderRemoteFileIOAPI.__init__ (str "/tmp/notes.txt") (str "r")
    (str "utf-8") false false
    (aiohttp.mkClientSession [inl TimeoutError] [] [] []).




(* ================================================================== *)
(** * Part II: properties *)
(* ================================================================== *)

(** ** Octets *)

Lemma Zb_range (b : byte) : 0 <= Zb b < 256.
Proof.
  unfold Zb. pose proof (Byte.to_N_bounded b) as H.
  lia.
Qed.




(** Induction on a list three elements at a time. *)
Lemma list_ind_by3 {A} (P : list A -> Prop) :
  P [] -> (forall a, P [a]) -> (forall a b, P [a; b]) ->
  (forall a b c l, P l -> P (a :: b :: c :: l)) ->
  forall l, P l.
Proof.
  intros H0 H1 H2 H3. fix IH 1.
  intros [|a [|b [|c l]]]; [exact H0 | apply H1 | apply H2 | apply H3, IH].
Qed.

(** ** base64 *)

Section Base64.

Import base64.

Lemma sextet_ok_all (n : Z) : 0 <= n < 64 -> sextet_ok n = true.
Proof.
  intros Hn. rewrite <- (Z2Nat.id n) by lia.
  assert (Hk : (Z.to_nat n < 64)%nat) by lia.
  generalize dependent (Z.to_nat n). clear. intros k Hk.
  do 64 (destruct k as [|k]; [vm_compute; reflexivity|]).
  lia.
Qed.



Lemma b2a_ascii (n : Z) : 0 <= n < 64 -> Zb (b2a n) < 128.
Proof.
  intros Hn. pose proof (sextet_ok_all n Hn) as H. unfold sextet_ok in H.
  destruct (a2b (b2a n)); [|discriminate].
  apply andb_prop in H as [_ H]. now apply Z.ltb_lt in H.
Qed.

Lemma pad_ascii : Zb BASE64_PAD < 128.
Proof. vm_compute. reflexivity. Qed.







Lemma b64encode_ascii (s : pybytes) :
  Forall (fun c => Zb c < 128) (base64.b64encode s).
Proof.
  induction s as [| b0 | b0 b1 | b0 b1 b2 s IH] using list_ind_by3;
    cbn [base64.b64encode].
  - constructor.
  - pose proof (Zb_range b0).
    repeat (constructor;
            [first [apply pad_ascii | apply b2a_ascii; lia]|]).
    constructor.
  - pose proof (Zb_range b0). pose proof (Zb_range b1).
    repeat (constructor;
            [first [apply pad_ascii | apply b2a_ascii; lia]|]).
    constructor.
  - pose proof (Zb_range b0). pose proof (Zb_range b1).
    pose proof (Zb_range b2).
    do 4 (constructor; [apply b2a_ascii; lia|]).
    exact IH.
Qed.

End Base64.

(** ** Text codecs *)

Section Codecs.

Import codecs.

Lemma ascii_decode_ascii (b : pybytes) :
  Forall (fun c => Zb c < 128) b -> ascii_decode b = Some (map Zb b).
Proof.
  induction 1 as [|c b Hc _ IH]; cbn [ascii_decode map]; [reflexivity|].
  apply Z.ltb_lt in Hc. rewrite Hc, IH. reflexivity.
Qed.









(** The text of a base64 encoding, and what [b64decode] makes of it. *)
Lemma decode_b64encode_ascii (b : pybytes) :
  decode (b64encode b) (str "ascii") = Ok (map Zb (b64encode b)).
Proof.
  unfold decode, b64encode. change (lookup (str "ascii")) with (Ok ascii).
  cbn [bindR decode_with].
  now rewrite (ascii_decode_ascii _ (b64encode_ascii b)).
Qed.


End Codecs.

(** ** The payload codec *)

Section PayloadCodec.

Import SpyderRemoteFileIOAPI.






End PayloadCodec.






(** ** What a method leaves unchanged *)

Section Keeps.

Context {S : Type} (R : S -> S -> Prop).
Hypothesis R_refl : forall s, R s s.
Hypothesis R_trans : forall a b c, R a b -> R b c -> R a c.

Lemma keeps_ret {A} (a : A) : keeps R (ret a).
Proof. intros s. apply R_refl. Qed.

Lemma keeps_raise {A} (e : exn) : keeps R (@raise S A e).
Proof. intros s. apply R_refl. Qed.

Lemma keeps_lift {A} (r : Result A) : keeps R (lift r).
Proof. intros s. apply R_refl. Qed.

Lemma keeps_pure {A} (f : S -> Result A) : keeps R (fun s => (f s, s)).
Proof. intros s. apply R_refl. Qed.

Lemma keeps_bind {A B} (m : M S A) (k : A -> M S B) :
  keeps R m -> (forall a, keeps R (k a)) -> keeps R (bind m k).
Proof.
  intros Hm Hk s. unfold bind. specialize (Hm s).
  destruct (m s) as [[a|e] s']; cbn [snd] in *; [|exact Hm].
  eapply R_trans; [exact Hm | apply Hk].
Qed.

End Keeps.

Section Handle.

Import aiohttp SpyderRemoteFileIOAPI.

Lemma only_websocket_refl (s : t) : only_websocket s s.
Proof. split; auto. Qed.

Lemma only_websocket_trans (a b c : t) :
  only_websocket a b -> only_websocket b c -> only_websocket a c.
Proof. intros [E1 H1] [E2 H2]. split; [congruence | auto]. Qed.

Lemma keeps_on_websocket {A} (m : M ClientWebSocketResponse A) :
  keeps only_websocket (on_websocket m).
Proof.
  intros s. unfold on_websocket.
  destruct (_websocket s) as [ws|] eqn:E.
  - destruct (m ws) as [r ws']. cbn [snd]. split; [reflexivity|].
    intros _. discriminate.
  - apply only_websocket_refl.
Qed.

Ltac keeps_step :=
  first
    [ apply (keeps_bind _ only_websocket_trans); [|intros ?]
    | apply (keeps_ret _ only_websocket_refl)
    | apply (keeps_raise _ only_websocket_refl)
    | apply (keeps_lift _ only_websocket_refl)
    | apply keeps_on_websocket
    | apply (keeps_pure _ only_websocket_refl)
    | match goal with
      | |- keeps _ (if ?c then _ else _) => destruct c
      | |- keeps _ (match ?x with _ => _ end) => destruct x
      end ].

Lemma keeps_check_connection : keeps only_websocket _check_connection.
Proof. unfold _check_connection, response_url. repeat keeps_step. Qed.

Lemma keeps_send_request method args :
  keeps only_websocket (_send_request method args).
Proof. unfold _send_request. repeat keeps_step. Qed.

Lemma keeps_get_response : keeps only_websocket _get_response.
Proof.
  unfold _get_response, response_url. repeat keeps_step.
  intros s.
  match goal with
  | |- context [match ?x with PyNone => _ | _ => _ end] => destruct x
  end; apply only_websocket_refl.
Qed.

Lemma keeps_readline size : keeps only_websocket (readline size).
Proof.
  unfold readline. apply (keeps_bind _ only_websocket_trans).
  - apply keeps_send_request.
  - intros _. apply keeps_get_response.
Qed.

End Handle.

(** ** connect *)

Section Connect.

Import aiohttp SpyderRemoteFileIOAPI.

Lemma connect_unconnected (self : t) :
  _websocket self = None ->
  connect self =
  match session_ws_connect self with
  | (Raise e, self1) => (Raise e, self1)
  | (Ok ws, self1) =>
      match _check_connection (set_websocket (Some ws) self1) with
      | (Ok _, self2) => (Ok tt, self2)
      | (Raise e, self2) => (Raise e, set_websocket None self2)
      end
  end.
Proof.
  intros H. unfold connect. rewrite H. unfold bind, try_except.
  destruct (session_ws_connect self) as [[ws|e] self1]; [|reflexivity].
  destruct (_check_connection (set_websocket (Some ws) self1))
    as [[[]|e] self2]; reflexivity.
Qed.

Lemma session_ws_connect_log (self : t) :
  let self1 := snd (session_ws_connect self) in
  ws_calls (session self1) = ws_calls (session self) ++ [connect_call self]
  /\ set_session (session self) self1 = self.
Proof.
  unfold session_ws_connect, on_session, ws_connect.
  destruct self as [n m e a l w s c]. cbn.
  destruct (ws_answers s) as [|r rest]; cbn; split; reflexivity.
Qed.

Lemma only_websocket_session (s s' : t) :
  only_websocket s s' -> session s' = session s.
Proof.
  intros [E _]. apply (f_equal session) in E. exact E.
Qed.

Lemma only_websocket_connect_call (s s' : t) :
  only_websocket s s' -> connect_call s' = connect_call s.
Proof.
  intros [E _]. destruct s, s'. cbn in E. injection E as -> -> -> -> ->.
  reflexivity.
Qed.

(** A connect from the unconnected state makes one websocket
    connection, whatever comes of it. *)
Lemma connect_unconnected_log (self : t) :
  _websocket self = None ->
  ws_calls (session (snd (connect self)))
  = ws_calls (session self) ++ [connect_call self].
Proof.
  intros H. rewrite (connect_unconnected self H).
  pose proof (session_ws_connect_log self) as [Hlog _]. cbv zeta in Hlog.
  destruct (session_ws_connect self) as [[ws|e] self1]; cbn [snd] in *;
    [|exact Hlog].
  pose proof (keeps_check_connection (set_websocket (Some ws) self1)) as K.
  apply only_websocket_session in K.
  destruct (_check_connection (set_websocket (Some ws) self1))
    as [[[]|e] self2]; cbn [snd] in *.
  - rewrite K. exact Hlog.
  - change (session (set_websocket None self2)) with (session self2).
    rewrite K. exact Hlog.
Qed.

(** A connect that succeeds leaves the handle connected, so that the
    next one does nothing. *)
Lemma connect_twice (self self' : t) :
  connect self = (Ok tt, self') -> connect self' = (Ok tt, self').
Proof.
  intros H.
  assert (Hw : _websocket self' <> None).
  { destruct (_websocket self) as [w|] eqn:E.
    - unfold connect in H. rewrite E in H. injection H as <-.
      rewrite E. discriminate.
    - rewrite (connect_unconnected self E) in H.
      destruct (session_ws_connect self) as [[ws|e] self1]; [|discriminate].
      pose proof (keeps_check_connection (set_websocket (Some ws) self1))
        as [_ K].
      destruct (_check_connection (set_websocket (Some ws) self1))
        as [[[]|e] self2]; [|discriminate].
      injection H as <-. apply K. discriminate. }
  unfold connect. destruct (_websocket self'); [reflexivity|].
  now contradiction Hw.
Qed.

End Connect.

(** C7: on a handle whose connection is established, connect returns at
    once and leaves the whole object, its websocket and the session with
    its record of connections included, as it was. *)
Theorem connect_is_idempotent :
  forall self : SpyderRemoteFileIOAPI.t,
    SpyderRemoteFileIOAPI._websocket self <> None ->
    SpyderRemoteFileIOAPI.connect self = (Ok tt, self).
Proof.
  intros self H. unfold SpyderRemoteFileIOAPI.connect.
  destruct (SpyderRemoteFileIOAPI._websocket self); [reflexivity|].
  now contradiction H.
Qed.

Lemma connect_is_idempotent_witness :
  SpyderRemoteFileIOAPI.connect connected_handle = (Ok tt, connected_handle).
Proof.
  apply (connect_is_idempotent connected_handle). discriminate.
Defined.

(** C4: when the websocket connection is made and the validation of the
    handshake raises, connect raises the same exception with the
    websocket reference cleared, and a connect on the handle so left
    makes a new websocket connection with the same parameters. *)
Theorem failed_handshake_clears_websocket :
  forall (self self1 self2 : SpyderRemoteFileIOAPI.t)
         (ws : aiohttp.ClientWebSocketResponse) (e : exn),
    SpyderRemoteFileIOAPI._websocket self = None ->
    SpyderRemoteFileIOAPI.session_ws_connect self = (Ok ws, self1) ->
    SpyderRemoteFileIOAPI._check_connection
      (SpyderRemoteFileIOAPI.set_websocket (Some ws) self1)
    = (Raise e, self2) ->
    let self' := SpyderRemoteFileIOAPI.set_websocket None self2 in
    SpyderRemoteFileIOAPI.connect self = (Raise e, self')
    /\ SpyderRemoteFileIOAPI._websocket self' = None
    /\ aiohttp.ws_calls
         (SpyderRemoteFileIOAPI.session
            (snd (SpyderRemoteFileIOAPI.connect self')))
       = aiohttp.ws_calls (SpyderRemoteFileIOAPI.session self')
         ++ [SpyderRemoteFileIOAPI.connect_call self].
Proof.
  intros self self1 self2 ws e Hnone Hconn Hcheck self'.
  split; [|split].
  - rewrite (connect_unconnected self Hnone), Hconn, Hcheck. reflexivity.
  - reflexivity.
  - rewrite (connect_unconnected_log self' eq_refl). f_equal. f_equal.
    pose proof (keeps_check_connection
                  (SpyderRemoteFileIOAPI.set_websocket (Some ws) self1)) as K.
    rewrite Hcheck in K. cbn [snd] in K.
    apply only_websocket_connect_call in K.
    pose proof (session_ws_connect_log self) as [_ Hs].
    rewrite Hconn in Hs. cbn [snd] in Hs. cbv zeta in Hs.
    transitivity (SpyderRemoteFileIOAPI.connect_call self2); [reflexivity|].
    rewrite K, <- Hs. reflexivity.
Qed.

Lemma failed_handshake_clears_websocket_witness :
  SpyderRemoteFileIOAPI._websocket
    (snd (SpyderRemoteFileIOAPI.connect refused_handle)) = None
  /\ List.length (aiohttp.ws_calls
       (SpyderRemoteFileIOAPI.session
          (snd (SpyderRemoteFileIOAPI.connect
                  (snd (SpyderRemoteFileIOAPI.connect refused_handle))))))
     = 2%nat.
Proof.
  destruct (failed_handshake_clears_websocket refused_handle _ _ _ _
              eq_refl eq_refl eq_refl) as [E [_ L]].
  rewrite E. cbn [snd]. split; [reflexivity|].
  rewrite L. reflexivity.
Defined.

(** C9: readinto raises the unsupported operation error on any handle
    and any argument, and leaves the handle, its websocket and the
    requests sent on it included, as it was. *)
Theorem readinto_is_unsupported :
  forall (self : SpyderRemoteFileIOAPI.t) (b : pyval),
    SpyderRemoteFileIOAPI.readinto b self
    = (Raise (NotImplementedError
                (str "readinto() is not supported by the remote file API")),
       self).
Proof. intros self b. reflexivity. Qed.

(** ** The handshake *)

Section Handshake.

Import aiohttp SpyderRemoteFileIOAPI.

Lemma getitem_dict d k v :
  dict_lookup k d = Some v -> getitem (PyDict d) k = Ok v.
Proof. intros H. unfold getitem. now rewrite H. Qed.



Lemma receive_frame self ws frame rest :
  _websocket self = Some ws -> aiohttp.closed ws = false ->
  incoming ws = frame :: rest ->
  on_websocket receive self
  = (Ok frame, set_websocket (Some (with_incoming rest ws)) self).
Proof.
  intros Hw Hc Hi. unfold on_websocket, receive. rewrite Hw, Hc, Hi.
  unfold with_incoming. rewrite Hc. reflexivity.
Qed.

Lemma close_websocket self ws :
  _websocket self = Some ws ->
  on_websocket aiohttp.close self
  = (Ok tt, set_websocket (Some (with_closed true ws)) self).
Proof. intros Hw. unfold on_websocket. rewrite Hw. reflexivity. Qed.

Lemma response_url_of self ws :
  _websocket self = Some ws ->
  response_url self = (Ok (_response_url ws), self).
Proof.
  intros Hw. unfold response_url, on_websocket. rewrite Hw.
  destruct self, ws. cbn in *. subst. reflexivity.
Qed.

End Handshake.

Section Run.

Context {S A B : Type}.

Lemma bind_ok (m : M S A) (k : A -> M S B) s a s' :
  m s = (Ok a, s') -> bind m k s = k a s'.
Proof. intros H. unfold bind. now rewrite H. Qed.

Lemma bind_raise (m : M S A) (k : A -> M S B) s e s' :
  m s = (Raise e, s') -> bind m k s = (Raise e, s').
Proof. intros H. unfold bind. now rewrite H. Qed.

Lemma bind_lift (r : Result A) (k : A -> M S B) s :
  bind (lift r) k s
  = match r with Ok a => k a s | Raise e => (Raise e, s) end.
Proof. unfold bind, lift. now destruct r. Qed.

End Run.



(** ** The response decoder *)

Section Decoder.

Import aiohttp SpyderRemoteFileIOAPI.

Lemma receive_bytes_frame self ws frame rest :
  _websocket self = Some ws -> aiohttp.closed ws = false ->
  incoming ws = frame :: rest -> type frame = BINARY ->
  on_websocket receive_bytes self
  = (Ok (data frame), set_websocket (Some (with_incoming rest ws)) self).
Proof.
  intros Hw Hc Hi Ht. unfold on_websocket, receive_bytes, bind, receive.
  rewrite Hw, Hc, Hi, Ht. unfold with_incoming. rewrite Hc. reflexivity.
Qed.

Lemma gt_int_as_int st n k : as_int st = Some n -> gt_int st k = Ok (k <? n).
Proof. intros H. unfold gt_int. now rewrite H. Qed.

Lemma eq_int_as_int st n k : as_int st = Some n -> eq_int st k = (n =? k).
Proof. intros H. unfold eq_int. now rewrite H. Qed.

End Decoder.



(** ** Tracebacks of the filesystem-style errors *)

Section Tracebacks.

Import aiohttp.

Lemma not_os_clean {A} (r : Result A) : not_os r -> clean r.
Proof. intros H e ->. contradiction H. Qed.

Lemma clean_raise {A B} (e : exn) : clean (@Raise A e) -> clean (@Raise B e).
Proof. intros H x [= ->]. apply H. reflexivity. Qed.

Lemma from_json_tracebacks data u e :
  from_json data u = Ok e -> tracebacks (service_part e) = PyList [].
Proof.
  unfold from_json.
  destruct (getitem data (str "errno")); [|discriminate].
  destruct (getitem data (str "strerror")); [|discriminate].
  destruct (getitem data (str "filename")); [|discriminate].
  cbn [bindR]. intros [= <-]. reflexivity.
Qed.

Lemma not_os_getitem data k : not_os (getitem data k).
Proof.
  unfold getitem. destruct data; try exact I.
  destruct (dict_lookup k d); exact I.
Qed.

Lemma not_os_get data k default : not_os (get data k default).
Proof.
  unfold get. destruct data; try exact I.
  destruct (dict_lookup k d); exact I.
Qed.

Lemma not_os_gt_int v n : not_os (gt_int v n).
Proof. unfold gt_int. destruct (as_int v); exact I. Qed.

Lemma not_os_loads p : not_os (json.loads p).
Proof. destruct p as [v|[v|]]; exact I. Qed.

Lemma not_os_from_json data u : not_os (from_json data u).
Proof.
  unfold from_json.
  pose proof (not_os_getitem data (str "errno")) as H1.
  destruct (getitem data (str "errno")); [|exact H1].
  pose proof (not_os_getitem data (str "strerror")) as H2.
  destruct (getitem data (str "strerror")); [|exact H2].
  pose proof (not_os_getitem data (str "filename")) as H3.
  destruct (getitem data (str "filename")); [|exact H3].
  exact I.
Qed.

Lemma not_os_b64decode s : not_os (b64decode s).
Proof.
  unfold b64decode, base64.a2b_base64.
  destruct (codecs.encode_with codecs.ascii s) as [a|]; [|exact I].
  destruct (base64.a2b_loop a 0 0 0); exact I.
Qed.

Lemma not_os_codecs_decode b e : not_os (codecs.decode b e).
Proof.
  unfold codecs.decode, codecs.lookup.
  destruct (codecs.assoc e codecs.names); [|exact I]. cbn [bindR].
  destruct (codecs.decode_with c b); exact I.
Qed.

Lemma not_os_decode_data self data :
  not_os (SpyderRemoteFileIOAPI._decode_data self data).
Proof.
  unfold SpyderRemoteFileIOAPI._decode_data. destruct data; try exact I.
  pose proof (not_os_b64decode s) as Hb.
  destruct (SpyderRemoteFileIOAPI.binary_mode self);
    destruct (b64decode s) as [b|]; try exact Hb; try exact I.
  cbn [bindR].
  pose proof (not_os_codecs_decode b (SpyderRemoteFileIOAPI.encoding self))
    as Hd.
  destruct (codecs.decode b (SpyderRemoteFileIOAPI.encoding self));
    [exact I | exact Hd].
Qed.

Lemma not_os_mapR {A B} (f : A -> Result B) (l : list A) :
  (forall a, not_os (f a)) -> not_os (mapR f l).
Proof.
  intros Hf. induction l as [|a l IH]; [exact I|]. cbn [mapR].
  specialize (Hf a). destruct (f a); [|exact Hf]. cbn [bindR].
  destruct (mapR f l); [exact I | exact IH].
Qed.

Context {S : Type}.

Lemma cleanM_ret {A} (a : A) : cleanM (@ret S A a).
Proof. intros s e H. discriminate. Qed.

Lemma cleanM_lift {A} (r : Result A) : not_os r -> cleanM (@lift S A r).
Proof. intros H s. apply not_os_clean. exact H. Qed.

Lemma cleanM_pure {A} (f : S -> Result A) :
  (forall s, not_os (f s)) -> cleanM (fun s => (f s, s)).
Proof. intros H s. apply not_os_clean. apply H. Qed.

Lemma cleanM_bind {A B} (m : M S A) (k : A -> M S B) :
  cleanM m -> (forall a, cleanM (k a)) -> cleanM (bind m k).
Proof.
  intros Hm Hk s. unfold bind. specialize (Hm s).
  destruct (m s) as [[a|e] s']; cbn [fst] in *; [apply Hk|].
  exact (clean_raise e Hm).
Qed.

(** The one place where a filesystem-style error is raised. *)
Lemma cleanM_raise_from_json {A} data u :
  cleanM (e <- @lift S _ (from_json data u) ;;
          @raise S A (raise_RemoteOSError e))%io.
Proof.
  intros s. rewrite bind_lift.
  pose proof (not_os_from_json data u) as Hn.
  destruct (from_json data u) as [x|x] eqn:E.
  - intros e [= <-]. exact (from_json_tracebacks data u x E).
  - apply not_os_clean. exact Hn.
Qed.

Lemma cleanM_raise_service {A} (x : RemoteFileServicesError) :
  cleanM (@raise S A (raise_RemoteFileServicesError x)).
Proof. intros s e H. discriminate. Qed.

End Tracebacks.

Section TracebacksOfMethods.

Import aiohttp SpyderRemoteFileIOAPI.

Lemma cleanM_on_websocket {A} (m : M ClientWebSocketResponse A) :
  cleanM m -> cleanM (on_websocket m).
Proof.
  intros Hm s. unfold on_websocket.
  destruct (_websocket s) as [ws|].
  - specialize (Hm ws). destruct (m ws) as [r ws']. exact Hm.
  - intros e H. discriminate.
Qed.

Lemma cleanM_receive : cleanM receive.
Proof.
  intros ws. unfold receive. apply not_os_clean.
  destruct (aiohttp.closed ws); [exact I|].
  destruct (incoming ws); exact I.
Qed.

Lemma cleanM_receive_bytes : cleanM receive_bytes.
Proof.
  unfold receive_bytes. apply cleanM_bind; [apply cleanM_receive|].
  intros msg. destruct (WSMsgType_eqb (type msg) BINARY).
  - apply cleanM_ret.
  - intros s e H. discriminate.
Qed.

Lemma cleanM_close : cleanM aiohttp.close.
Proof. intros ws e H. discriminate. Qed.

Lemma cleanM_send_json obj : cleanM (send_json obj).
Proof.
  intros ws. unfold send_json. apply not_os_clean.
  destruct (aiohttp.closed ws); exact I.
Qed.

Lemma cleanM_response_url : cleanM response_url.
Proof.
  unfold response_url. apply cleanM_on_websocket. intros ws e H.
  discriminate.
Qed.

Ltac clean_step :=
  first
    [ apply cleanM_raise_from_json
    | apply cleanM_raise_service
    | apply cleanM_ret
    | apply cleanM_response_url
    | apply cleanM_on_websocket;
      first [apply cleanM_receive | apply cleanM_receive_bytes
            | apply cleanM_close | apply cleanM_send_json]
    | apply cleanM_lift;
      first [apply not_os_getitem | apply not_os_get | apply not_os_gt_int
            | apply not_os_loads]
    | apply cleanM_bind; [|intros ?]
    | match goal with
      | |- cleanM (if ?c then _ else _) => destruct c
      end ].

Lemma cleanM_check_connection : cleanM _check_connection.
Proof. unfold _check_connection. repeat clean_step. Qed.

Lemma cleanM_get_response : cleanM _get_response.
Proof.
  unfold _get_response. repeat clean_step.
  intros s. apply not_os_clean.
  match goal with
  | |- context [match ?x with PyNone => _ | _ => _ end] => destruct x
  end; cbn [fst]; try exact I; try apply not_os_decode_data.
  pose proof (not_os_mapR (_decode_data s) l (not_os_decode_data s)) as H.
  destruct (mapR (_decode_data s) l); [exact I | exact H].
Qed.

Lemma cleanM_connect : cleanM connect.
Proof.
  intros s. destruct (_websocket s) as [w|] eqn:E.
  - unfold connect. rewrite E. intros e H. discriminate.
  - rewrite (connect_unconnected s E).
    assert (Hs : clean (fst (session_ws_connect s))).
    { unfold session_ws_connect, on_session, ws_connect. apply not_os_clean.
      destruct (ws_answers (session s)) as [|[t0|w] rest]; exact I. }
    destruct (session_ws_connect s) as [[ws|x] s1];
      [|exact (clean_raise x Hs)].
    pose proof (cleanM_check_connection (set_websocket (Some ws) s1)) as Hc.
    destruct (_check_connection (set_websocket (Some ws) s1))
      as [[[]|x] s2]; [intros e H; discriminate | exact Hc].
Qed.

End TracebacksOfMethods.

(** ** The metadata operations *)

Section Services.

Import aiohttp SpyderRemoteFileServicesAPI.




End Services.

Section TracebacksOfServices.

Import aiohttp SpyderRemoteFileServicesAPI.

Lemma cleanM_raise_for_status : cleanM _raise_for_status.
Proof.
  intros response. unfold _raise_for_status.
  destruct (negb ((status response =? HTTPStatus.INTERNAL_SERVER_ERROR)
                  || (status response =? HTTPStatus.EXPECTATION_FAILED))).
  - unfold raise_for_status. apply not_os_clean.
    destruct (400 <=? status response); exact I.
  - match goal with
    | |- clean (fst (?m response)) =>
        assert (H : cleanM m); [|exact (H response)]
    end.
    apply cleanM_bind.
    { intros r. unfold try_except, response_json. apply not_os_clean.
      destruct (body r) as [v|[v|]]; exact I. }
    intros data. apply cleanM_bind.
    { intros r e H. discriminate. }
    intros _. destruct (status response =? HTTPStatus.EXPECTATION_FAILED).
    + apply cleanM_raise_from_json.
    + apply cleanM_bind; [apply cleanM_lift, not_os_get|]. intros ty.
      apply cleanM_bind; [apply cleanM_lift, not_os_get|]. intros msg.
      apply cleanM_bind; [apply cleanM_lift, not_os_get|]. intros tb.
      apply cleanM_raise_service.
Qed.

Lemma cleanM_call op : cleanM (call op).
Proof.
  intros self.
  assert (H : forall v u params,
             clean (fst (with_json (request v u params) self))).
  { intros v u params. unfold with_json, request, transfer, bind.
    destruct (answers (session self)) as [|[x|response] rest].
    - apply not_os_clean. exact I.
    - apply not_os_clean. exact I.
    - pose proof (cleanM_raise_for_status response) as Hc.
      destruct (_raise_for_status response) as [[[]|e] r'].
      + apply not_os_clean. apply not_os_loads.
      + exact (clean_raise e Hc). }
  destruct op; apply H.
Qed.

End TracebacksOfServices.




(** C10: a filesystem-style error carries an empty list of tracebacks
    wherever the client builds it: in the constructor and in from_json,
    and so in every such error raised by the handshake, by connect, by
    the response decoder of a session, by the status check of a metadata
    response and by every metadata operation, whatever the payload holds;
    the generic service error carries the tracebacks of the payload. *)
Theorem filesystem_errors_carry_no_tracebacks :
  (forall a b f u,
      tracebacks (service_part (RemoteOSError_init a b f u)) = PyList [])
  /\ (forall data u e,
         from_json data u = Ok e ->
         tracebacks (service_part e) = PyList [])
  /\ (forall self e self',
         SpyderRemoteFileIOAPI._check_connection self
         = (Raise (raise_RemoteOSError e), self') ->
         tracebacks (service_part e) = PyList [])
  /\ (forall self e self',
         SpyderRemoteFileIOAPI.connect self
         = (Raise (raise_RemoteOSError e), self') ->
         tracebacks (service_part e) = PyList [])
  /\ (forall self e self',
         SpyderRemoteFileIOAPI._get_response self
         = (Raise (raise_RemoteOSError e), self') ->
         tracebacks (service_part e) = PyList [])
  /\ (forall response e response',
         SpyderRemoteFileServicesAPI._raise_for_status response
         = (Raise (raise_RemoteOSError e), response') ->
         tracebacks (service_part e) = PyList [])
  /\ (forall op self e self',
         SpyderRemoteFileServicesAPI.call op self
         = (Raise (raise_RemoteOSError e), self') ->
         tracebacks (service_part e) = PyList [])
  /\ (forall d u,
         tracebacks (service_error_of d u)
         = field_or d (str "tracebacks") (PyList [])).
Proof.
  split; [reflexivity|].
  split; [exact from_json_tracebacks|].
  split.
  { intros self e self' H.
    apply (cleanM_check_connection self). now rewrite H. }
  split.
  { intros self e self' H. apply (cleanM_connect self). now rewrite H. }
  split.
  { intros self e self' H. apply (cleanM_get_response self). now rewrite H. }
  split.
  { intros r e r' H. apply (cleanM_raise_for_status r). now rewrite H. }
  split.
  { intros op self e self' H. apply (cleanM_call op self). now rewrite H. }
  reflexivity.
Qed.

Lemma filesystem_errors_carry_no_tracebacks_witness :
  dict_lookup (str "tracebacks") missing_file
  = Some (PyList [PyStr (str "Traceback (most recent call last)")])
  /\ fst (SpyderRemoteFileIOAPI._get_response (awaiting (reply missing_file)))
     = Raise (raise_RemoteOSError missing_file_error)
  /\ tracebacks (service_part missing_file_error) = PyList [].
Proof.
  split; [reflexivity|]. split; [reflexivity|].
  exact (proj1 (proj2 (proj2 (proj2 (proj2
           filesystem_errors_carry_no_tracebacks))))
           (awaiting (reply missing_file)) missing_file_error _ eq_refl).
Defined.

(** ** Iteration *)

Section Iteration.

Import aiohttp SpyderRemoteFileIOAPI.






End Iteration.



(** The two lines are yielded, the empty line ends the iteration, and the
    frame after it is still to come. *)
Example two_lines_iterated :
  fst (SpyderRemoteFileIOAPI.__iter__ 5 two_lines)
  = ([PyStr (str "a" ++ [10]); PyStr (str "b" ++ [10])],
     SpyderRemoteFileIOAPI.Exhausted)
  /\ pending (snd (SpyderRemoteFileIOAPI.__iter__ 5 two_lines)) = 1%nat.
Proof. split; vm_compute; reflexivity. Qed.

(* ================================================================== *)
(** * Part III: further properties of the code *)
(* ================================================================== *)

(** ** What encoding can come to *)


(** ** Calls that send nothing *)

Section NothingSent.

Import aiohttp SpyderRemoteFileIOAPI.

Lemma send_request_unconnected method args self :
  _websocket self = None ->
  _send_request method args self = (Raise AttributeError, self).
Proof.
  intros H. unfold _send_request, on_websocket. now rewrite H.
Qed.

Lemma request_unconnected method args self :
  _websocket self = None ->
  (_send_request method args ;; _get_response)%io self
  = (Raise AttributeError, self).
Proof.
  intros H. now rewrite (bind_raise _ _ _ _ _
                           (send_request_unconnected method args self H)).
Qed.

End NothingSent.

(** A write whose data the codec cannot encode, and a writelines one of
    whose lines it cannot encode, raise the error of the codec and leave
    the object as it was: nothing is sent, no frame is taken. *)
Theorem unencodable_payload_sends_nothing :
  forall (self : SpyderRemoteFileIOAPI.t) (op : file_operation) (e : exn),
    encoded_payload self op = Raise e ->
    perform op self = (Raise e, self).
Proof.
  intros self op e H.
  destruct op; cbn [encoded_payload] in H; try discriminate; cbn [perform].
  - unfold SpyderRemoteFileIOAPI.write, SpyderRemoteFileIOAPI.encoded.
    unfold bind at 1.
    destruct (SpyderRemoteFileIOAPI._encode_data self s); [discriminate|].
    now injection H as ->.
  - unfold SpyderRemoteFileIOAPI.writelines. unfold bind at 1.
    destruct (mapR (SpyderRemoteFileIOAPI._encode_data self) lines);
      [discriminate|].
    now injection H as ->.
Qed.

Lemma unencodable_payload_sends_nothing_witness :
  perform (do_write (PyStr sample_text)) ascii_handle
  = (Raise UnicodeEncodeError, ascii_handle)
  /\ perform (do_writelines [PyStr (str "ok"); PyStr sample_text]) ascii_handle
     = (Raise UnicodeEncodeError, ascii_handle).
Proof.
  split.
  - apply (unencodable_payload_sends_nothing ascii_handle
             (do_write (PyStr sample_text)) UnicodeEncodeError).
    reflexivity.
  - apply (unencodable_payload_sends_nothing ascii_handle
             (do_writelines [PyStr (str "ok"); PyStr sample_text])
             UnicodeEncodeError).
    reflexivity.
Defined.

(** On a handle that was never connected, every file operation whose
    payload encodes raises AttributeError, and so do close, the closed
    property, the next step of an iteration and the handshake check; the
    object is left as it was. *)
Theorem operations_need_a_connection :
  forall (self : SpyderRemoteFileIOAPI.t),
    SpyderRemoteFileIOAPI._websocket self = None ->
    (forall op, encoded_payload self op = Ok tt ->
                perform op self = (Raise AttributeError, self))
    /\ SpyderRemoteFileIOAPI.close self = (Raise AttributeError, self)
    /\ SpyderRemoteFileIOAPI.closed self = (Raise AttributeError, self)
    /\ SpyderRemoteFileIOAPI.__next__ self = (Raise AttributeError, self)
    /\ SpyderRemoteFileIOAPI._check_connection self
       = (Raise AttributeError, self)
    /\ SpyderRemoteFileIOAPI.__iter__ 1 self
       = ([], SpyderRemoteFileIOAPI.Raised AttributeError, self).
Proof.
  intros self Hw.
  assert (Hon : forall A (m : M aiohttp.ClientWebSocketResponse A),
             SpyderRemoteFileIOAPI.on_websocket m self
             = (Raise AttributeError, self)).
  { intros A m. unfold SpyderRemoteFileIOAPI.on_websocket. now rewrite Hw. }
  split; [|split; [|split; [|split; [|split]]]].
  - intros op He.
    destruct op; cbn [perform];
      try (apply request_unconnected; exact Hw).
    + cbn [encoded_payload] in He.
      unfold SpyderRemoteFileIOAPI.write, SpyderRemoteFileIOAPI.encoded.
      unfold bind at 1.
      destruct (SpyderRemoteFileIOAPI._encode_data self s);
        [|discriminate].
      apply request_unconnected; exact Hw.
    + cbn [encoded_payload] in He.
      unfold SpyderRemoteFileIOAPI.writelines. unfold bind at 1.
      destruct (mapR (SpyderRemoteFileIOAPI._encode_data self) lines);
        [|discriminate].
      apply request_unconnected; exact Hw.
  - unfold SpyderRemoteFileIOAPI.close.
    now rewrite (bind_raise _ _ _ _ _ (Hon _ aiohttp.close)).
  - unfold SpyderRemoteFileIOAPI.closed.
    now rewrite (bind_raise _ _ _ _ _ (Hon _ _)).
  - unfold SpyderRemoteFileIOAPI.__next__, SpyderRemoteFileIOAPI.readline.
    now rewrite (bind_raise _ _ _ _ _
                   (request_unconnected _ _ self Hw)).
  - unfold SpyderRemoteFileIOAPI._check_connection.
    now rewrite (bind_raise _ _ _ _ _ (Hon _ aiohttp.receive)).
  - cbn [SpyderRemoteFileIOAPI.__iter__].
    unfold SpyderRemoteFileIOAPI.readline.
    now rewrite (request_unconnected _ _ self Hw).
Qed.

Lemma operations_need_a_connection_witness :
  perform (do_read (-1)) text_handle = (Raise AttributeError, text_handle)
  /\ perform (do_write (PyStr sample_text)) text_handle
     = (Raise AttributeError, text_handle)
  /\ SpyderRemoteFileIOAPI.close text_handle
     = (Raise AttributeError, text_handle).
Proof.
  destruct (operations_need_a_connection text_handle eq_refl)
    as [Hop [Hclose _]].
  split; [|split].
  - apply Hop. reflexivity.
  - apply Hop. reflexivity.
  - exact Hclose.
Defined.

(** ** One request, one frame *)

Section Exchange.

Import aiohttp SpyderRemoteFileIOAPI.








End Exchange.



(** ** What is written is what is read *)

Section Echo.

Import aiohttp SpyderRemoteFileIOAPI.







End Echo.





(** ** Closures and the handshake *)

(** A closure frame never completes the handshake: whatever its close
    code and its payload, the check raises, and the websocket has been
    closed by then. *)
Theorem closure_never_completes_handshake :
  forall (self : SpyderRemoteFileIOAPI.t)
         (ws : aiohttp.ClientWebSocketResponse)
         (frame : aiohttp.WSMessage) (rest : list aiohttp.WSMessage),
    SpyderRemoteFileIOAPI._websocket self = Some ws ->
    aiohttp.closed ws = false ->
    aiohttp.incoming ws = frame :: rest ->
    aiohttp.type frame = aiohttp.CLOSE ->
    exists e,
      SpyderRemoteFileIOAPI._check_connection self
      = (Raise e,
         SpyderRemoteFileIOAPI.set_websocket
           (Some (with_closed true (with_incoming rest ws))) self).
Proof.
  intros self ws frame rest Hw Hc Hi Ht.
  set (opened := SpyderRemoteFileIOAPI.set_websocket
                   (Some (with_incoming rest ws)) self).
  set (shut := SpyderRemoteFileIOAPI.set_websocket
                 (Some (with_closed true (with_incoming rest ws))) self).
  pose proof (receive_frame self ws frame rest Hw Hc Hi) as Hrecv.
  assert (Hclose :
            SpyderRemoteFileIOAPI.on_websocket aiohttp.close opened
            = (Ok tt, shut))
    by (apply (close_websocket opened); reflexivity).
  assert (Hurl : SpyderRemoteFileIOAPI.response_url shut
                 = (Ok (aiohttp._response_url ws), shut))
    by exact (response_url_of shut
                (with_closed true (with_incoming rest ws)) eq_refl).
  unfold SpyderRemoteFileIOAPI._check_connection.
  rewrite (bind_ok _ _ _ _ _ Hrecv), Ht. cbn [aiohttp.WSMsgType_eqb].
  rewrite (bind_ok _ _ _ _ _ Hclose).
  destruct (payload_eq_int (aiohttp.data frame) 1002).
  - rewrite bind_lift.
    destruct (json.loads (aiohttp.extra frame)) as [d|x];
      [|eexists; reflexivity].
    rewrite bind_lift.
    destruct (getitem d (str "status")) as [st|x]; [|eexists; reflexivity].
    destruct (eq_int st HTTPStatus.LOCKED
              || eq_int st HTTPStatus.EXPECTATION_FAILED).
    + rewrite (bind_ok _ _ _ _ _ Hurl), bind_lift.
      destruct (from_json d (aiohttp._response_url ws));
        eexists; reflexivity.
    + rewrite bind_lift.
      destruct (get d (str "type") (PyStr (str "UnknownError")));
        [|eexists; reflexivity].
      rewrite bind_lift.
      destruct (get d (str "message") (PyStr (str "Unknown error")));
        [|eexists; reflexivity].
      rewrite (bind_ok _ _ _ _ _ Hurl), bind_lift.
      destruct (get d (str "tracebacks") (PyList []));
        eexists; reflexivity.
  - rewrite (bind_ok _ _ _ _ _ Hurl). eexists; reflexivity.
Qed.

Lemma closure_never_completes_handshake_witness :
  exists e,
    SpyderRemoteFileIOAPI._check_connection
      (awaiting (closure 1000 (Text None)))
    = (Raise e,
       SpyderRemoteFileIOAPI.set_websocket
         (Some (with_closed true
                  (with_incoming []
                     (aiohttp.mkClientWebSocketResponse
                        [closure 1000 (Text None)] [] false
                        (str "ws://hub/open")))))
         (awaiting (closure 1000 (Text None)))).
Proof.
  apply (closure_never_completes_handshake
           (awaiting (closure 1000 (Text None)))
           (aiohttp.mkClientWebSocketResponse
              [closure 1000 (Text None)] [] false (str "ws://hub/open"))
           (closure 1000 (Text None)) []);
    reflexivity.
Defined.

(** A closure with close code 1002 whose diagnostic cannot be used: when
    the text does not decode, the error of the JSON decoder is raised;
    when it decodes to a value that is not an object, TypeError; when the
    object has no status, KeyError "status"; when the status is locked or
    expectation failed and the object has no errno, KeyError "errno".
    None of these is turned into a service error. *)
Theorem unusable_diagnostic :
  forall (self : SpyderRemoteFileIOAPI.t)
         (ws : aiohttp.ClientWebSocketResponse)
         (frame : aiohttp.WSMessage) (rest : list aiohttp.WSMessage),
    SpyderRemoteFileIOAPI._websocket self = Some ws ->
    aiohttp.closed ws = false ->
    aiohttp.incoming ws = frame :: rest ->
    aiohttp.type frame = aiohttp.CLOSE ->
    payload_eq_int (aiohttp.data frame) 1002 = true ->
    let shut :=
      SpyderRemoteFileIOAPI.set_websocket
        (Some (with_closed true (with_incoming rest ws))) self in
    (forall x,
        json.loads (aiohttp.extra frame) = Raise x ->
        SpyderRemoteFileIOAPI._check_connection self = (Raise x, shut))
    /\ (forall v,
           json.loads (aiohttp.extra frame) = Ok v ->
           (forall d, v <> PyDict d) ->
           SpyderRemoteFileIOAPI._check_connection self
           = (Raise TypeError, shut))
    /\ (forall d,
           json.loads (aiohttp.extra frame) = Ok (PyDict d) ->
           dict_lookup (str "status") d = None ->
           SpyderRemoteFileIOAPI._check_connection self
           = (Raise (KeyError (str "status")), shut))
    /\ (forall d st,
           json.loads (aiohttp.extra frame) = Ok (PyDict d) ->
           dict_lookup (str "status") d = Some st ->
           eq_int st HTTPStatus.LOCKED
           || eq_int st HTTPStatus.EXPECTATION_FAILED = true ->
           dict_lookup (str "errno") d = None ->
           SpyderRemoteFileIOAPI._check_connection self
           = (Raise (KeyError (str "errno")), shut)).
Proof.
  intros self ws frame rest Hw Hc Hi Ht Hcode shut.
  set (opened := SpyderRemoteFileIOAPI.set_websocket
                   (Some (with_incoming rest ws)) self).
  pose proof (receive_frame self ws frame rest Hw Hc Hi) as Hrecv.
  assert (Hclose :
            SpyderRemoteFileIOAPI.on_websocket aiohttp.close opened
            = (Ok tt, shut))
    by (apply (close_websocket opened); reflexivity).
  assert (Hurl : SpyderRemoteFileIOAPI.response_url shut
                 = (Ok (aiohttp._response_url ws), shut))
    by exact (response_url_of shut
                (with_closed true (with_incoming rest ws)) eq_refl).
  assert (Hhead :
            SpyderRemoteFileIOAPI._check_connection self
            = (data <- lift (json.loads (aiohttp.extra frame)) ;;
               st <- lift (getitem data (str "status")) ;;
               if eq_int st HTTPStatus.LOCKED
                  || eq_int st HTTPStatus.EXPECTATION_FAILED
               then
                 u <- SpyderRemoteFileIOAPI.response_url ;;
                 e <- lift (from_json data u) ;;
                 raise (raise_RemoteOSError e)
               else
                 ty <- lift (get data (str "type")
                               (PyStr (str "UnknownError"))) ;;
                 msg <- lift (get data (str "message")
                                (PyStr (str "Unknown error"))) ;;
                 u <- SpyderRemoteFileIOAPI.response_url ;;
                 tb <- lift (get data (str "tracebacks") (PyList [])) ;;
                 raise (raise_RemoteFileServicesError
                          (RemoteFileServicesError_init (Val ty) (Val msg)
                             u tb)))%io shut).
  { unfold SpyderRemoteFileIOAPI._check_connection.
    rewrite (bind_ok _ _ _ _ _ Hrecv), Ht. cbn [aiohttp.WSMsgType_eqb].
    rewrite (bind_ok _ _ _ _ _ Hclose), Hcode. reflexivity. }
  rewrite Hhead. split; [|split; [|split]].
  - intros x Hx. now rewrite bind_lift, Hx.
  - intros v Hv Hnd. rewrite bind_lift, Hv, bind_lift.
    destruct v; try reflexivity. now contradiction (Hnd d).
  - intros d Hd Hst. rewrite bind_lift, Hd, bind_lift.
    unfold getitem. now rewrite Hst.
  - intros d st Hd Hst Hfs Herrno.
    rewrite bind_lift, Hd, bind_lift, (getitem_dict d _ st Hst), Hfs.
    rewrite (bind_ok _ _ _ _ _ Hurl), bind_lift.
    unfold from_json, getitem. now rewrite Herrno.
Qed.

Lemma unusable_diagnostic_witness :
  fst (SpyderRemoteFileIOAPI._check_connection
         (awaiting (closure 1002 (Text None))))
  = Raise JSONDecodeError
  /\ fst (SpyderRemoteFileIOAPI._check_connection
            (awaiting (closure 1002 (Text (Some (PyDict []))))))
     = Raise (KeyError (str "status"))
  /\ fst (SpyderRemoteFileIOAPI._check_connection
            (awaiting (closure 1002
                         (Text (Some (PyDict [(str "status", PyInt 423)]))))))
     = Raise (KeyError (str "errno")).
Proof.
  split; [|split].
  - destruct (unusable_diagnostic (awaiting (closure 1002 (Text None)))
                _ _ [] eq_refl eq_refl eq_refl eq_refl eq_refl) as [H _].
    now rewrite (H JSONDecodeError eq_refl).
  - destruct (unusable_diagnostic
                (awaiting (closure 1002 (Text (Some (PyDict [])))))
                _ _ [] eq_refl eq_refl eq_refl eq_refl eq_refl)
      as [_ [_ [H _]]].
    now rewrite (H [] eq_refl eq_refl).
  - destruct (unusable_diagnostic
                (awaiting (closure 1002
                             (Text (Some (PyDict [(str "status", PyInt 423)])))))
                _ _ [] eq_refl eq_refl eq_refl eq_refl eq_refl)
      as [_ [_ [_ H]]].
    now rewrite (H _ (PyInt 423) eq_refl eq_refl eq_refl eq_refl).
Defined.

(** ** The outcomes of connect *)

Section ConnectOutcomes.

Import aiohttp SpyderRemoteFileIOAPI.

Lemma session_ws_connect_call self :
  connect_call (snd (session_ws_connect self)) = connect_call self.
Proof.
  pose proof (session_ws_connect_log self) as [_ H]. cbv zeta in H.
  rewrite <- H at 2. reflexivity.
Qed.

(** Connect changes nothing of what the connection is made from: the
    name, the mode, the flags and the encoding. *)
Lemma connect_keeps_call self :
  connect_call (snd (connect self)) = connect_call self.
Proof.
  destruct (_websocket self) as [w|] eqn:E.
  - unfold connect. now rewrite E.
  - rewrite (connect_unconnected self E).
    pose proof (session_ws_connect_call self) as Hs.
    destruct (session_ws_connect self) as [[ws|e] self1]; cbn [snd] in *;
      [|exact Hs].
    pose proof (keeps_check_connection (set_websocket (Some ws) self1)) as K.
    apply only_websocket_connect_call in K.
    destruct (_check_connection (set_websocket (Some ws) self1))
      as [[[]|e] self2]; cbn [snd] in *.
    + now rewrite K.
    + change (connect_call (set_websocket None self2))
        with (connect_call self2).
      now rewrite K.
Qed.

Lemma connect_ok_connected self self' :
  connect self = (Ok tt, self') -> _websocket self' <> None.
Proof.
  intros H. pose proof (connect_twice self self' H) as H2.
  unfold connect in H2. destruct (_websocket self') as [w|] eqn:E;
    [discriminate|].
  intros _. revert H2. fold (connect self').
  destruct (_websocket self) as [w|] eqn:E0.
  - unfold connect in H. rewrite E0 in H. injection H as <-. congruence.
  - rewrite (connect_unconnected self E0) in H.
    destruct (session_ws_connect self) as [[ws|e] self1]; [|discriminate].
    pose proof (keeps_check_connection (set_websocket (Some ws) self1))
      as [_ K].
    destruct (_check_connection (set_websocket (Some ws) self1))
      as [[[]|e] self2]; [|discriminate].
    injection H as <-. cbn [snd] in K.
    exfalso. apply K; [discriminate | exact E].
Qed.

Lemma connect_raise_unconnected self e self' :
  connect self = (Raise e, self') ->
  _websocket self = None /\ _websocket self' = None.
Proof.
  intros H. destruct (_websocket self) as [w|] eqn:E.
  - unfold connect in H. rewrite E in H. discriminate.
  - split; [reflexivity|]. rewrite (connect_unconnected self E) in H.
    destruct (session_ws_connect self) as [[ws|x] self1] eqn:Hs.
    + destruct (_check_connection (set_websocket (Some ws) self1))
        as [[[]|x] self2]; [discriminate|].
      injection H as _ <-. reflexivity.
    + injection H as _ <-.
      unfold session_ws_connect, on_session in Hs.
      destruct (ws_connect _ _ (session self)) as [r s'].
      injection Hs as _ <-. exact E.
Qed.

End ConnectOutcomes.

(** Connect never leaves a handle half open: when it returns the handle
    holds a websocket, when it raises the handle was unconnected and is
    left unconnected; either way the name, the mode, the flags and the
    encoding, from which the connection is made, are unchanged. *)
Theorem connect_leaves_connected_or_unconnected :
  forall (self self' : SpyderRemoteFileIOAPI.t) (r : Result unit),
    SpyderRemoteFileIOAPI.connect self = (r, self') ->
    SpyderRemoteFileIOAPI.connect_call self'
    = SpyderRemoteFileIOAPI.connect_call self
    /\ match r with
       | Ok _ => SpyderRemoteFileIOAPI._websocket self' <> None
       | Raise _ =>
           SpyderRemoteFileIOAPI._websocket self = None
           /\ SpyderRemoteFileIOAPI._websocket self' = None
       end.
Proof.
  intros self self' r H. split.
  - pose proof (connect_keeps_call self) as K. now rewrite H in K.
  - destruct r as [[]|e].
    + exact (connect_ok_connected self self' H).
    + exact (connect_raise_unconnected self e self' H).
Qed.

Lemma connect_leaves_connected_or_unconnected_witness :
  SpyderRemoteFileIOAPI._websocket
    (snd (SpyderRemoteFileIOAPI.connect welcomed_handle)) <> None
  /\ SpyderRemoteFileIOAPI._websocket
       (snd (SpyderRemoteFileIOAPI.connect refused_handle)) = None.
Proof.
  split.
  - exact (proj2 (connect_leaves_connected_or_unconnected
                    welcomed_handle _ (Ok tt) eq_refl)).
  - exact (proj2 (proj2 (connect_leaves_connected_or_unconnected
                           refused_handle _ (Raise _) eq_refl))).
Defined.

(** A failure of the transport to make the websocket connection is
    raised by connect as it is; no frame is awaited, the handle stays
    unconnected, and the session records the one attempt. *)
Theorem transport_failure_propagates :
  forall (self : SpyderRemoteFileIOAPI.t) (t : transport_error)
         (rest : list (transport_error + aiohttp.ClientWebSocketResponse)),
    SpyderRemoteFileIOAPI._websocket self = None ->
    aiohttp.ws_answers (SpyderRemoteFileIOAPI.session self) = inl t :: rest ->
    SpyderRemoteFileIOAPI.connect self
    = (Raise (transport t),
       SpyderRemoteFileIOAPI.set_session
         (aiohttp.mkClientSession rest
            (aiohttp.ws_calls (SpyderRemoteFileIOAPI.session self)
             ++ [SpyderRemoteFileIOAPI.connect_call self])
            (aiohttp.answers (SpyderRemoteFileIOAPI.session self))
            (aiohttp.calls (SpyderRemoteFileIOAPI.session self)))
         self).
Proof.
  intros self t rest Hw Ha.
  rewrite (connect_unconnected self Hw).
  unfold SpyderRemoteFileIOAPI.session_ws_connect,
    SpyderRemoteFileIOAPI.on_session, aiohttp.ws_connect.
  rewrite Ha. destruct self as [n m e a l w s c]. reflexivity.
Qed.

Lemma transport_failure_propagates_witness :
  fst (SpyderRemoteFileIOAPI.connect unreachable_handle)
  = Raise (transport TimeoutError)
  /\ SpyderRemoteFileIOAPI._websocket
       (snd (SpyderRemoteFileIOAPI.connect unreachable_handle)) = None.
Proof.
  rewrite (transport_failure_propagates unreachable_handle TimeoutError []
             eq_refl eq_refl).
  split; reflexivity.
Defined.



(** ** Metadata operations: the other statuses *)

Section OtherStatuses.

Import aiohttp SpyderRemoteFileServicesAPI.


End OtherStatuses.





(** Every metadata operation makes exactly one request, to an endpoint
    under the base url, and takes the one answer to it: the record of
    requests grows by one, and nothing of the websocket side of the
    session is touched, whatever the operation returns or raises. *)
Theorem metadata_operation_is_one_request :
  forall (op : SpyderRemoteFileServicesAPI.operation)
         (self : SpyderRemoteFileServicesAPI.t),
    exists c endpoint target,
      aiohttp.req_url c
      = [SpyderRemoteFileServicesAPI.base_url; endpoint; target]
      /\ SpyderRemoteFileServicesAPI.session
           (snd (SpyderRemoteFileServicesAPI.call op self))
         = aiohttp.mkClientSession
             (aiohttp.ws_answers (SpyderRemoteFileServicesAPI.session self))
             (aiohttp.ws_calls (SpyderRemoteFileServicesAPI.session self))
             (tl (aiohttp.answers (SpyderRemoteFileServicesAPI.session self)))
             (aiohttp.calls (SpyderRemoteFileServicesAPI.session self) ++ [c]).
Proof.
  intros op self.
  destruct op; cbn [SpyderRemoteFileServicesAPI.call];
    unfold SpyderRemoteFileServicesAPI.ls, SpyderRemoteFileServicesAPI.info,
      SpyderRemoteFileServicesAPI.exists_,
      SpyderRemoteFileServicesAPI.is_file,
      SpyderRemoteFileServicesAPI.is_dir, SpyderRemoteFileServicesAPI.mkdir,
      SpyderRemoteFileServicesAPI.rmdir, SpyderRemoteFileServicesAPI.unlink,
      SpyderRemoteFileServicesAPI.copy, SpyderRemoteFileServicesAPI.copy2,
      SpyderRemoteFileServicesAPI.replace, SpyderRemoteFileServicesAPI.touch,
      SpyderRemoteFileServicesAPI.with_json,
      SpyderRemoteFileServicesAPI.request;
    match goal with
    | |- context [aiohttp.transfer ?v ?u ?p] =>
        exists (aiohttp.mk_request_call v u p)
    end;
    (eexists; eexists; split; [reflexivity|]);
    unfold aiohttp.transfer, bind;
    destruct (aiohttp.answers (SpyderRemoteFileServicesAPI.session self))
      as [|[x|response] rest];
    try reflexivity;
    destruct (SpyderRemoteFileServicesAPI._raise_for_status response)
      as [[[]|e] r']; reflexivity.
Qed.

(** ** Responses that cannot be classified *)

(** A binary frame that the decoder of a session cannot classify: when
    it is not JSON the error of the JSON decoder is raised; when it is a
    JSON value that is not an object, TypeError; an object without
    status, KeyError "status"; a status that is not a number, TypeError;
    a status of 417 in an object without errno, KeyError "errno".  The
    frame is taken all the same, and no service error stands in for
    these. *)
Theorem unclassifiable_response :
  forall (self : SpyderRemoteFileIOAPI.t)
         (ws : aiohttp.ClientWebSocketResponse)
         (frame : aiohttp.WSMessage) (rest : list aiohttp.WSMessage),
    SpyderRemoteFileIOAPI._websocket self = Some ws ->
    aiohttp.closed ws = false ->
    aiohttp.incoming ws = frame :: rest ->
    aiohttp.type frame = aiohttp.BINARY ->
    let after :=
      SpyderRemoteFileIOAPI.set_websocket
        (Some (with_incoming rest ws)) self in
    (forall x,
        json.loads (aiohttp.data frame) = Raise x ->
        SpyderRemoteFileIOAPI._get_response self = (Raise x, after))
    /\ (forall v,
           json.loads (aiohttp.data frame) = Ok v ->
           (forall d, v <> PyDict d) ->
           SpyderRemoteFileIOAPI._get_response self = (Raise TypeError, after))
    /\ (forall d,
           json.loads (aiohttp.data frame) = Ok (PyDict d) ->
           dict_lookup (str "status") d = None ->
           SpyderRemoteFileIOAPI._get_response self
           = (Raise (KeyError (str "status")), after))
    /\ (forall d st,
           json.loads (aiohttp.data frame) = Ok (PyDict d) ->
           dict_lookup (str "status") d = Some st ->
           as_int st = None ->
           SpyderRemoteFileIOAPI._get_response self = (Raise TypeError, after))
    /\ (forall d st,
           json.loads (aiohttp.data frame) = Ok (PyDict d) ->
           dict_lookup (str "status") d = Some st ->
           as_int st = Some HTTPStatus.EXPECTATION_FAILED ->
           dict_lookup (str "errno") d = None ->
           SpyderRemoteFileIOAPI._get_response self
           = (Raise (KeyError (str "errno")), after)).
Proof.
  intros self ws frame rest Hw Hc Hi Ht after.
  pose proof (receive_bytes_frame self ws frame rest Hw Hc Hi Ht) as Hrecv.
  assert (Hurl : SpyderRemoteFileIOAPI.response_url after
                 = (Ok (aiohttp._response_url ws), after))
    by exact (response_url_of after (with_incoming rest ws) eq_refl).
  unfold SpyderRemoteFileIOAPI._get_response.
  rewrite (bind_ok _ _ _ _ _ Hrecv), bind_lift.
  split; [|split; [|split; [|split]]].
  - intros x Hx. now rewrite Hx.
  - intros v Hv Hnd. rewrite Hv, bind_lift.
    destruct v; try reflexivity. now contradiction (Hnd d).
  - intros d Hd Hst. rewrite Hd, bind_lift. unfold getitem. now rewrite Hst.
  - intros d st Hd Hst Hn.
    rewrite Hd, bind_lift, (getitem_dict d _ st Hst), bind_lift.
    unfold gt_int. now rewrite Hn.
  - intros d st Hd Hst Hn Herrno.
    rewrite Hd, bind_lift, (getitem_dict d _ st Hst), bind_lift,
      (gt_int_as_int st _ _ Hn), (eq_int_as_int st _ _ Hn).
    change (HTTPStatus.BAD_REQUEST <? HTTPStatus.EXPECTATION_FAILED)
      with true.
    change (HTTPStatus.EXPECTATION_FAILED =? HTTPStatus.EXPECTATION_FAILED)
      with true.
    cbv iota.
    rewrite (bind_ok _ _ _ _ _ Hurl), bind_lift.
    unfold from_json, getitem. now rewrite Herrno.
Qed.

Lemma unclassifiable_response_witness :
  fst (SpyderRemoteFileIOAPI._get_response
         (awaiting (aiohttp.mkWSMessage aiohttp.BINARY (Text None)
                      (Obj PyNone))))
  = Raise JSONDecodeError
  /\ fst (SpyderRemoteFileIOAPI._get_response
            (awaiting (reply [(str "data", PyStr (str "YQ=="))])))
     = Raise (KeyError (str "status"))
  /\ fst (SpyderRemoteFileIOAPI._get_response
            (awaiting (reply [(str "status", PyStr (str "200"))])))
     = Raise TypeError
  /\ fst (SpyderRemoteFileIOAPI._get_response
            (awaiting (reply [(str "status", PyInt 417)])))
     = Raise (KeyError (str "errno")).
Proof.
  split; [|split; [|split]].
  - destruct (unclassifiable_response
                (awaiting (aiohttp.mkWSMessage aiohttp.BINARY (Text None)
                             (Obj PyNone)))
                _ _ [] eq_refl eq_refl eq_refl eq_refl) as [H _].
    now rewrite (H JSONDecodeError eq_refl).
  - destruct (unclassifiable_response
                (awaiting (reply [(str "data", PyStr (str "YQ=="))]))
                _ _ [] eq_refl eq_refl eq_refl eq_refl) as [_ [_ [H _]]].
    now rewrite (H _ eq_refl eq_refl).
  - destruct (unclassifiable_response
                (awaiting (reply [(str "status", PyStr (str "200"))]))
                _ _ [] eq_refl eq_refl eq_refl eq_refl)
      as [_ [_ [_ [H _]]]].
    now rewrite (H _ (PyStr (str "200")) eq_refl eq_refl eq_refl).
  - destruct (unclassifiable_response
                (awaiting (reply [(str "status", PyInt 417)]))
                _ _ [] eq_refl eq_refl eq_refl eq_refl)
      as [_ [_ [_ [_ H]]]].
    now rewrite (H _ (PyInt 417) eq_refl eq_refl eq_refl eq_refl).
Defined.

(** ** close *)

(** Close does not clear the connection reference: on a connected handle
    it returns with the websocket closed and still referenced, so that a
    connect afterwards does nothing and makes no new connection. *)
Theorem close_keeps_the_reference :
  forall (self : SpyderRemoteFileIOAPI.t)
         (ws : aiohttp.ClientWebSocketResponse),
    SpyderRemoteFileIOAPI._websocket self = Some ws ->
    exists self',
      SpyderRemoteFileIOAPI.close self = (Ok tt, self')
      /\ SpyderRemoteFileIOAPI._websocket self' = Some (with_closed true ws)
      /\ SpyderRemoteFileIOAPI.session self'
         = SpyderRemoteFileIOAPI.session self
      /\ SpyderRemoteFileIOAPI.connect self' = (Ok tt, self').
Proof.
  intros self ws Hw. eexists.
  split; [|split; [|split]].
  - unfold SpyderRemoteFileIOAPI.close.
    rewrite (bind_ok _ _ _ _ _ (close_websocket self ws Hw)).
    reflexivity.
  - reflexivity.
  - reflexivity.
  - reflexivity.
Qed.

Lemma close_keeps_the_reference_witness :
  exists self',
    SpyderRemoteFileIOAPI.close connected_handle = (Ok tt, self')
    /\ SpyderRemoteFileIOAPI._websocket self'
       = Some (with_closed true sample_ws)
    /\ SpyderRemoteFileIOAPI.session self'
       = SpyderRemoteFileIOAPI.session connected_handle
    /\ SpyderRemoteFileIOAPI.connect self' = (Ok tt, self').
Proof.
  apply (close_keeps_the_reference connected_handle sample_ws). reflexivity.
Defined.

(** ** The exchanges of an iteration *)



(** ** Tracebacks, for the file operations *)

Section TracebacksOfOperations.

Import aiohttp SpyderRemoteFileIOAPI.

Lemma not_os_codecs_encode s e : not_os (codecs.encode s e).
Proof.
  unfold codecs.encode, codecs.lookup.
  destruct (codecs.assoc e codecs.names); [|exact I]. cbn [bindR].
  destruct (codecs.encode_with c s); exact I.
Qed.

Lemma not_os_encode_data self data : not_os (_encode_data self data).
Proof.
  unfold _encode_data. destruct data; try exact I.
  - pose proof (not_os_codecs_encode s (encoding self)) as He.
    destruct (codecs.encode s (encoding self)) as [b|]; [|exact He].
    cbn [bindR]. rewrite decode_b64encode_ascii. exact I.
  - rewrite decode_b64encode_ascii. exact I.
Qed.

Lemma cleanM_request method args :
  cleanM (_send_request method args ;; _get_response)%io.
Proof.
  apply cleanM_bind.
  - unfold _send_request. apply cleanM_on_websocket, cleanM_send_json.
  - intros _. apply cleanM_get_response.
Qed.

End TracebacksOfOperations.

(** A filesystem-style error raised by any file operation carries an
    empty list of tracebacks, whatever the response of the server
    holds. *)
Theorem file_operations_raise_clean_errors :
  forall (op : file_operation) (self self' : SpyderRemoteFileIOAPI.t)
         (e : RemoteOSError),
    perform op self = (Raise (raise_RemoteOSError e), self') ->
    tracebacks (service_part e) = PyList [].
Proof.
  intros op self self' e H.
  assert (Hc : cleanM (perform op)).
  { destruct op; cbn [perform]; try apply cleanM_request.
    - unfold SpyderRemoteFileIOAPI.write, SpyderRemoteFileIOAPI.encoded.
      apply cleanM_bind; [|intros d; apply cleanM_request].
      apply cleanM_pure. intros s0. apply not_os_encode_data.
    - unfold SpyderRemoteFileIOAPI.writelines.
      apply cleanM_bind; [|intros d; apply cleanM_request].
      apply cleanM_pure. intros s0. apply not_os_mapR.
      intros a. apply not_os_encode_data. }
  apply (Hc self). now rewrite H.
Qed.

Lemma file_operations_raise_clean_errors_witness :
  perform (do_read (-1)) (awaiting (reply missing_file))
  = (Raise (raise_RemoteOSError missing_file_error),
     snd (perform (do_read (-1)) (awaiting (reply missing_file))))
  /\ tracebacks (service_part missing_file_error) = PyList [].
Proof.
  split; [reflexivity|].
  exact (file_operations_raise_clean_errors (do_read (-1))
           (awaiting (reply missing_file)) _ missing_file_error eq_refl).
Defined.
